(** * The MCP protocol engine of the Bleeding Edge Kali MCP server

    A shallow embedding of [src/app.py]: the JSON-RPC request handler
    ([handle_mcp_request]), the tool registry ([_register_mcp_tools]), the tool
    executor ([_execute_tool], [_execute_tool_impl]), the health endpoint
    ([health_check]), the SSE generator ([event_stream]) and the tool
    [get_kali_tool_category] together with the arsenal table it reads.

    Python values are modelled by the type [json]; a Python exception is a
    value of type [exn] and a computation that may raise has type [res A].
    The handler builds its [JSONResponse] inside its [try] block, and building
    it renders the body; what cannot be rendered is therefore answered by the
    handler's [except] branch. *)

From Stdlib Require Import ZArith List String Ascii Bool Lia DecimalString.
From Stdlib Require Import SpecFloat.
Set Warnings "-register-all".
Import ListNotations.
Open Scope string_scope.

(** ** Python values and the builtins the server relies on *)

Module Py.

(** The values [request.json()] produces.  An [int] is an integer, a
    [float] an IEEE 754 value (the decoder accepts [NaN] and [Infinity]).  A
    [str] is given by its UTF-8 bytes; a lone surrogate, which the escape
    ["\ud800"] of a JSON text produces, by the three bytes [ED A0..BF xx] of
    its generalised encoding.  A [JObj] is a [dict]: its items in insertion
    order, looked up by first match. *)
Inductive json : Type :=
| JNull
| JBool (b : bool)
| JNum (z : Z)
| JFloat (f : spec_float)
| JStr (s : string)
| JArr (items : list json)
| JObj (items : list (string * json)).

Definition dict (V : Type) : Type := list (string * V).

(** The exceptions that can reach the handler's [except Exception]. *)
Inductive exn : Type :=
| JSONDecodeError (msg : string)
| AttributeError (type_name attr : string)
| TypeError_unhashable (type_name : string)
| TypeError_no_len (type_name : string)
| KeyError (key_repr : string)
| RenderError (msg : string).

(** [str(e)] as CPython renders it. *)
Definition str_exn (e : exn) : string :=
  match e with
  | JSONDecodeError msg => msg
  | AttributeError t a => "'" ++ t ++ "' object has no attribute '" ++ a ++ "'"
  | TypeError_unhashable t => "unhashable type: '" ++ t ++ "'"
  | TypeError_no_len t => "object of type '" ++ t ++ "' has no len()"
  | KeyError k => k
  | RenderError msg => msg
  end.

(** A computation that returns or raises. *)
Inductive res (A : Type) : Type :=
| Ok (a : A)
| Raise (e : exn).
Arguments Ok {A} a.
Arguments Raise {A} e.

Definition bind {A B : Type} (c : res A) (k : A -> res B) : res B :=
  match c with
  | Ok a => k a
  | Raise e => Raise e
  end.

(** [try: body  except Exception as e: handler(e)] *)
Definition try_except {A : Type} (body : res A) (handler : exn -> res A) : res A :=
  match body with
  | Ok a => Ok a
  | Raise e => handler e
  end.

(** [type(v).__name__] *)
Definition type_name (v : json) : string :=
  match v with
  | JNull => "NoneType"
  | JBool _ => "bool"
  | JNum _ => "int"
  | JFloat _ => "float"
  | JStr _ => "str"
  | JArr _ => "list"
  | JObj _ => "dict"
  end.

(** [bool(v)] *)
Definition truthy (v : json) : bool :=
  match v with
  | JNull => false
  | JBool b => b
  | JNum z => negb (Z.eqb z 0)
  | JFloat f => match f with S754_zero _ => false | _ => true end
  | JStr s => negb (String.eqb s "")
  | JArr l => match l with [] => false | _ => true end
  | JObj l => match l with [] => false | _ => true end
  end.

Definition hashable (v : json) : bool :=
  match v with
  | JArr _ | JObj _ => false
  | _ => true
  end.

(** [v == s] for a string literal [s]. *)
Definition str_eq (v : json) (s : string) : bool :=
  match v with
  | JStr t => String.eqb t s
  | _ => false
  end.

Fixpoint dict_get {V : Type} (d : dict V) (k : string) : option V :=
  match d with
  | [] => None
  | (k', v) :: d' => if String.eqb k' k then Some v else dict_get d' k
  end.

Definition dict_keys {V : Type} (d : dict V) : list string := map fst d.

(** [d[k] = v]: an existing key keeps its place, a new one goes last. *)
Fixpoint dict_set {V : Type} (d : dict V) (k : string) (v : V) : dict V :=
  match d with
  | [] => [(k, v)]
  | (k', v') :: d' =>
      if String.eqb k' k then (k, v) :: d' else (k', v') :: dict_set d' k v
  end.

(** [{**d, **e}] *)
Definition dict_merge {V : Type} (d e : dict V) : dict V :=
  fold_left (fun acc kv => dict_set acc (fst kv) (snd kv)) e d.

Definition mem (k : string) (l : list string) : bool :=
  existsb (String.eqb k) l.

(** [d.get(k, default)] on a dict *)
Definition dict_get_or {V : Type} (d : dict V) (k : string) (default : V) : V :=
  match dict_get d k with
  | Some v => v
  | None => default
  end.

(** [o.get(k, default)] on any value *)
Definition get (o : json) (k : string) (default : json) : res json :=
  match o with
  | JObj d => Ok (dict_get_or d k default)
  | _ => Raise (AttributeError (type_name o) "get")
  end.

(** [k in d] for a dict [d] with string keys. *)
Definition contains_key {V : Type} (k : json) (d : dict V) : res bool :=
  match k with
  | JStr s => Ok (mem s (dict_keys d))
  | JArr _ | JObj _ => Raise (TypeError_unhashable (type_name k))
  | _ => Ok false
  end.

(** [len(v)]; the length of a [str] is counted in bytes here, its value is
    never inspected. *)
Definition len (v : json) : res nat :=
  match v with
  | JStr s => Ok (String.length s)
  | JArr l => Ok (List.length l)
  | JObj l => Ok (List.length l)
  | _ => Raise (TypeError_no_len (type_name v))
  end.

(** [s.upper()] on ASCII letters; the server applies it to category names,
    which are ASCII. *)
Definition upper_ascii (c : ascii) : ascii :=
  let n := nat_of_ascii c in
  if (97 <=? n)%nat && (n <=? 122)%nat then ascii_of_nat (n - 32) else c.

Fixpoint upper (s : string) : string :=
  match s with
  | EmptyString => EmptyString
  | String c s' => String (upper_ascii c) (upper s')
  end.

(** [v.upper()] *)
Definition call_upper (v : json) : res string :=
  match v with
  | JStr s => Ok (upper s)
  | _ => Raise (AttributeError (type_name v) "upper")
  end.

(** [sep.join(l)] *)
Definition join (sep : string) (l : list string) : string := String.concat sep l.

(** [f"{n}"] for an [int]. *)
Definition dec (z : Z) : string := NilZero.string_of_int (Z.to_int z).

(** [f"{i:2d}"]: right-aligned in a field of width two. *)
Definition dec2 (i : nat) : string :=
  let s := dec (Z.of_nat i) in
  if (String.length s <? 2)%nat then " " ++ s else s.

Definition nl : string := String (ascii_of_nat 10) EmptyString.

(** *** What [json.dumps(..., allow_nan=False).encode("utf-8")] accepts *)

Definition ascii_only (s : string) : bool :=
  forallb (fun c => (nat_of_ascii c <? 128)%nat) (list_ascii_of_string s).

(** The byte [c] and what follows it start the encoding of a surrogate. *)
Definition starts_surrogate (c : ascii) (rest : string) : bool :=
  (nat_of_ascii c =? 237)%nat
  && match rest with
     | String c' _ => (160 <=? nat_of_ascii c')%nat
     | EmptyString => false
     end.

(** [s.encode("utf-8")] succeeds: no surrogate in [s]. *)
Fixpoint encodable (s : string) : bool :=
  match s with
  | EmptyString => true
  | String c rest => negb (starts_surrogate c rest) && encodable rest
  end.

Definition is_finite (f : spec_float) : bool :=
  match f with
  | S754_zero _ | S754_finite _ _ _ => true
  | S754_infinity _ | S754_nan => false
  end.

(** The value can be rendered when the encoder may still descend [budget]
    levels of lists and mappings: every float is finite (otherwise
    [ValueError]), every string and key can be encoded (otherwise
    [UnicodeEncodeError]) and nothing is nested deeper than [budget] (otherwise
    [RecursionError]). *)
Fixpoint renderable (budget : nat) (v : json) {struct v} : bool :=
  match v with
  | JNull | JBool _ | JNum _ => true
  | JFloat f => is_finite f
  | JStr s => encodable s
  | JArr items =>
      match budget with
      | O => false
      | S b => forallb (renderable b) items
      end
  | JObj items =>
      match budget with
      | O => false
      | S b => forallb (fun kv => encodable (fst kv) && renderable b (snd kv)) items
      end
  end.

End Py.
Export Py.

Declare Scope res_scope.
Notation "x <- c ;; k" := (bind c (fun x => k))
  (at level 61, c at next level, right associativity) : res_scope.
Open Scope res_scope.

(** ** Protocol constants *)

Definition MCP_VERSION : string := "2024-11-05".

Definition SERVER_INFO : json :=
  JObj
    [("name", JStr "darkdriftz-bleeding-edge-kali-mcp-unified");
     ("version", JStr "3.0.0");
     ("description",
      JStr "DarkDriftz's Complete Bleeding Edge Kali Linux MCP Server - Unified HF Spaces + HuggingChat");
     ("capabilities",
      JObj
        [("bleeding_edge", JBool true);
         ("auto_updates", JBool true);
         ("experimental_tools", JBool true);
         ("gradio_interface", JBool true);
         ("mcp_integration", JBool true);
         ("unified_platform", JBool true);
         ("gemini_3_pro_preview", JBool true)])].

Definition PLATFORM_TYPE : string := "Unified Hugging Face Spaces + MCP Server".

(** [d[k]] on a constant table of the module; the keys read below exist. *)
Definition item (d : json) (k : string) : json :=
  match d with
  | JObj kv => match dict_get kv k with Some v => v | None => JNull end
  | _ => JNull
  end.

(** ** The arsenal table *)

Module Category.
Record info : Type := category {
  count : Z;
  description : string;
  bleeding_edge_enhanced : bool;
  tools : list string
}.
End Category.
Import Category (category).

Definition get_kali_arsenal_data : dict Category.info :=
  [
    ("Information Gathering",
     category 85 "Complete reconnaissance and intelligence gathering tools" true
       ["nmap"; "masscan"; "zmap"; "unicornscan"; "dmitry";
        "netdiscover"; "nbtscan"; "enum4linux"; "smbclient";
        "rpcclient"; "showmount"; "snmpwalk"; "snmpcheck";
        "onesixtyone"; "sipvicious"; "whatweb"; "wafw00f"; "httprint";
        "fierce"; "dnsenum"; "dnsrecon"; "dnsmap"; "sublist3r";
        "theharvester"; "metagoofil"; "recon-ng"; "maltego";
        "subfinder"; "httpx"; "katana"; "nuclei"; "naabu"; "dnsx";
        "rustscan"; "feroxbuster"; "httpx-toolkit"; "katana-crawler";
        "interactsh"; "notify"; "chaos-client"; "dnsprobe";
        "shuffledns"]);
    ("Vulnerability Analysis",
     category 62 "Advanced vulnerability scanning and analysis tools" true
       ["openvas"; "nikto"; "w3af"; "skipfish"; "wapiti"; "sqlmap";
        "commix"; "bed"; "lynis"; "unix-privesc-check"; "nuclei";
        "linux-exploit-suggester"; "windows-exploit-suggester";
        "nuclei-templates"; "neural-fuzzing"; "ai-security-toolkit"]);
    ("Web Applications",
     category 58 "Complete web application security testing suite" true
       ["owasp-zap"; "burpsuite"; "webscarab"; "proxystrike"; "vega";
        "sqlninja"; "bbqsql"; "jsql-injection"; "hexorbase"; "dirb";
        "dirbuster"; "gobuster"; "feroxbuster"; "ffuf"; "wfuzz";
        "cariddi"; "gau"; "waybackurls"; "gf"; "anew"; "unfurl"]);
    ("Password Attacks",
     category 42 "Advanced password cracking and analysis tools" true
       ["john"; "hashcat"; "hydra"; "medusa"; "ncrack"; "patator";
        "crowbar"; "cewl"; "crunch"; "cupp"; "rsmangler"; "wordlists";
        "hashcat-utils-ng"; "john-jumbo-ng"; "maskprocessor-ng"]);
    ("Wireless Attacks",
     category 38 "Complete wireless security testing arsenal" true
       ["aircrack-ng"; "airmon-ng"; "airodump-ng"; "aireplay-ng";
        "wifite"; "reaver"; "bully"; "pixiewps"; "wash"; "mdk3";
        "wifipumpkin3"; "eaphammer-ng"; "wifi-arsenal";
        "bluetooth-arsenal"]);
    ("Exploitation Tools",
     category 55 "Advanced exploitation frameworks and tools" true
       ["metasploit-framework"; "armitage"; "empire"; "covenant";
        "sliver"; "merlin"; "pupy"; "koadic"; "veil"; "shellter";
        "sliver-client"; "merlin-agent"; "covenant-client";
        "havoc-framework"]);
    ("Forensics",
     category 48 "Digital forensics and incident response tools" true
       ["volatility"; "autopsy"; "sleuthkit"; "foremost"; "binwalk";
        "bulk-extractor"; "chkrootkit"; "rkhunter"; "aide"; "ossec";
        "volatility3"; "autopsy-ng"; "sleuthkit-ng"; "yara-ng"]);
    ("Reverse Engineering",
     category 35 "Complete reverse engineering and analysis tools" true
       ["gdb"; "radare2"; "ida-free"; "ghidra"; "objdump"; "strings";
        "ltrace"; "strace"; "hexedit"; "bless"; "dhex"; "okteta"]);
    ("Hardware Hacking",
     category 28 "Hardware security and IoT testing tools" true
       ["minicom"; "screen"; "picocom"; "openocd"; "avrdude";
        "flashrom"; "dediprog"; "bus-pirate"; "arduino"; "platformio";
        "iot-toolkit"; "hardware-hacking-ng"; "firmware-analysis-ng"]);
    ("Crypto & Stego",
     category 32 "Cryptography and steganography analysis tools" true
       ["hashcat"; "john"; "steghide"; "outguess"; "foremost";
        "binwalk"; "exiftool"; "fcrackzip"; "pdfcrack"; "rarcrack"]);
    ("Reporting Tools",
     category 25 "Professional security assessment reporting" true
       ["cutycapt"; "faraday"; "dradis"; "magictree"; "case-file";
        "maltego"; "recordmydesktop"; "kazam"; "vokoscreen";
        "simplescreenrecorder"]);
    ("Social Engineering",
     category 22 "Social engineering and OSINT tools" true
       ["set"; "beef"; "king-phisher"; "gophish"; "evilginx2";
        "catphish"; "weeman"; "blackeye"; "shellphish"; "zphisher";
        "osint-toolkit-ng"; "social-analyzer-ng"; "sherlock-ng"]);
    ("Sniffing & Spoofing",
     category 31 "Network analysis and manipulation tools" true
       ["wireshark"; "tshark"; "tcpdump"; "ettercap"; "dsniff";
        "arpspoof"; "ettercap-ng"; "bettercap"; "mitmproxy";
        "sslstrip"; "packet-analysis-ng"; "network-intercept-toolkit"])
  ].

Module BleedingEdge.
Record config : Type := {
  enabled : bool;
  priority : string;
  repositories : list string;
  additional_tools_count : Z;
  update_frequency : string;
  auto_sync : bool;
  experimental_features : bool
}.
End BleedingEdge.

Definition BLEEDING_EDGE_CONFIG : BleedingEdge.config :=
  {| BleedingEdge.enabled := true;
     BleedingEdge.priority := "high";
     BleedingEdge.repositories :=
       ["kali-bleeding-edge"; "kali-experimental"; "kali-dev"];
     BleedingEdge.additional_tools_count := 150;
     BleedingEdge.update_frequency := "4_hours";
     BleedingEdge.auto_sync := true;
     BleedingEdge.experimental_features := true |}.

(** [sum(category["count"] for category in arsenal_data.values())] *)
Definition sum_counts (arsenal_data : dict Category.info) : Z :=
  fold_left Z.add (map (fun kv => Category.count (snd kv)) arsenal_data) 0%Z.

(** The three functions below are wrapped in [lru_cache(maxsize=1)]; they
    take no argument and read constants only, so every call returns the value
    computed here. *)
Definition get_total_tool_count : Z :=
  let arsenal_data := get_kali_arsenal_data in
  (sum_counts arsenal_data
   + BleedingEdge.additional_tools_count BLEEDING_EDGE_CONFIG)%Z.

Definition get_standard_tool_count : Z :=
  let arsenal_data := get_kali_arsenal_data in
  sum_counts arsenal_data.

Definition get_category_count : nat :=
  let arsenal_data := get_kali_arsenal_data in
  List.length arsenal_data.

(** ** The tool [get_kali_tool_category] *)

(** [for i, tool in enumerate(tools, 1): result += f"{i:2d}. {tool} {bleeding_indicator}\n"];
    [bleeding_indicator] is the empty string on both sides of its
    conditional. *)
Fixpoint tool_lines (i : nat) (tools : list string) : string :=
  match tools with
  | [] => ""
  | tool :: rest =>
      (dec2 i ++ ". " ++ tool ++ " " ++ "" ++ nl) ++ tool_lines (S i) rest
  end.

(** [arsenal_data[category_name]] *)
Definition arsenal_item (arsenal_data : dict Category.info) (category_name : json)
  : res Category.info :=
  match category_name with
  | JStr s =>
      match dict_get arsenal_data s with
      | Some category_info => Ok category_info
      | None => Raise (KeyError ("'" ++ s ++ "'"))
      end
  | JArr _ | JObj _ => Raise (TypeError_unhashable (type_name category_name))
  | _ => Raise (KeyError (type_name category_name))
  end.

Definition get_kali_tool_category (category_name : json) : res string :=
  let arsenal_data := get_kali_arsenal_data in
  invalid <- (if negb (truthy category_name) then Ok true
              else present <- contains_key category_name arsenal_data ;;
                   Ok (negb present)) ;;
  if (invalid : bool) then
    let available_categories := dict_keys arsenal_data in
    Ok ("Invalid category. Available categories: "
        ++ join ", " available_categories)
  else
    category_info <- arsenal_item arsenal_data category_name ;;
    let bleeding_status :=
      if Category.bleeding_edge_enhanced category_info
      then "BLEEDING EDGE ENHANCED" else "STANDARD" in
    upper_name <- call_upper category_name ;;
    let result :=
      nl ++ upper_name ++ " - " ++ bleeding_status ++ nl
      ++ nl
      ++ "**Category Statistics:**" ++ nl
      ++ "- **Tool Count**: " ++ dec (Category.count category_info) ++ nl
      ++ "- **Description**: " ++ Category.description category_info ++ nl
      ++ "- **Bleeding Edge**: "
      ++ (if Category.bleeding_edge_enhanced category_info
          then "Enhanced" else "Standard") ++ nl
      ++ nl
      ++ "**Available Tools:**" ++ nl in
    let tools := Category.tools category_info in
    let result := result ++ tool_lines 1 tools in
    let result :=
      result
      ++ nl
      ++ "**Usage in Bleeding Edge Scans:**" ++ nl
      ++ "This category is automatically utilized in comprehensive security assessments with" ++ nl
      ++ "enhanced bleeding edge tools for maximum coverage and advanced threat detection." ++ nl
      ++ nl
      ++ "Created by DarkDriftz - Revolutionary Cybersecurity Research Platform" ++ nl in
    Ok result.

(** ** What the server takes from its host *)

(** Fixed for the life of the process.  The texts of the four other tools
    are template renderings that the protocol engine treats as opaque; which
    arguments make them raise is modelled in the tool functions below. *)
Record Runtime : Type := {
  (** [TRACING_ENABLED and tracer] *)
  tracing : bool;
  (** [str(v)] for a value [v] that is not a [str] *)
  str_other : json -> string;
  (** the text [get_complete_kali_arsenal_info()] builds *)
  arsenal_info_text : string;
  (** the text [get_bleeding_edge_status()] built on its first call *)
  bleeding_edge_status_text : string;
  (** the text [run_kali_security_scan_impl] builds at time [now] from the
      formatted [target] and the string [scan_type] *)
  scan_results_text : string -> string -> string -> string;
  (** the text [generate_kali_security_report] builds at time [now] from the
      string [report_type] *)
  report_text : string -> string -> string;
  (** how many levels of lists and mappings the JSON encoder can descend
      where the handler builds its response, before [RecursionError] *)
  recursion_budget : nat;
  (** [str(e)] of the exception raised when a body cannot be rendered *)
  render_error_text : json -> string;
  (** there is room to render the handler's own error object, *)
  recursion_budget_ok : (2 <=? recursion_budget)%nat = true;
  (** and the interpreter's messages are ASCII *)
  render_error_text_ascii : forall content, ascii_only (render_error_text content) = true
}.

(** Read from the host while one request is served. *)
Record Ambient : Type := {
  (** [str(uuid.uuid4())] *)
  uuid4 : string;
  (** [datetime.now()], formatted *)
  now : string
}.

(** ** Responses *)

Record Response : Type := {
  status_code : Z;
  body : option json
}.

(** [JSONResponse(content=..., status_code=...)]: the constructor renders
    the body and raises when it cannot. *)
Definition JSONResponse (RT : Runtime) (content : json) (status : Z) : res Response :=
  if renderable (recursion_budget RT) content
  then Ok {| status_code := status; body := Some content |}
  else Raise (RenderError (render_error_text RT content)).

(** [id], [result] and [error] of a response body, and the fields of its
    [error] object. *)
Definition body_field (r : Response) (k : string) : option json :=
  match body r with
  | Some (JObj kv) => dict_get kv k
  | _ => None
  end.

Definition error_field (r : Response) (k : string) : option json :=
  match body_field r "error" with
  | Some (JObj kv) => dict_get kv k
  | _ => None
  end.

(** ** The server object *)

Record server_state : Type := {
  tools : dict (dict json);
  resources : list json;
  capabilities : json
}.

(** [self.server_state["tools"][name] = details] *)
Definition set_tool (self : server_state) (name : string) (details : dict json)
  : server_state :=
  {| tools := dict_set (tools self) name details;
     resources := resources self;
     capabilities := capabilities self |}.

Definition _register_mcp_tools (self : server_state) : server_state :=
  let self :=
    set_tool self "get_complete_kali_arsenal_info"
      [("description",
        JStr "Get complete information about DarkDriftz's bleeding edge Kali Linux arsenal");
       ("inputSchema",
        JObj [("type", JStr "object");
              ("properties", JObj []);
              ("required", JArr [])])] in
  let self :=
    set_tool self "get_kali_tool_category"
      [("description",
        JStr "Get detailed information about a specific Kali Linux tool category");
       ("inputSchema",
        JObj [("type", JStr "object");
              ("properties",
               JObj [("category_name",
                      JObj [("type", JStr "string");
                            ("description", JStr "Name of the tool category")])]);
              ("required", JArr [JStr "category_name"])])] in
  let self :=
    set_tool self "run_kali_security_scan"
      [("description",
        JStr "Run comprehensive security scan using bleeding edge enhanced tools");
       ("inputSchema",
        JObj [("type", JStr "object");
              ("properties",
               JObj [("target",
                      JObj [("type", JStr "string");
                            ("description", JStr "Target for security scanning")]);
                     ("scan_type",
                      JObj [("type", JStr "string");
                            ("description",
                             JStr "Type of scan (reconnaissance, vulnerability, web, etc.)")])]);
              ("required", JArr [JStr "target"])])] in
  let self :=
    set_tool self "get_bleeding_edge_status"
      [("description",
        JStr "Get comprehensive bleeding edge repository status and capabilities");
       ("inputSchema",
        JObj [("type", JStr "object");
              ("properties", JObj []);
              ("required", JArr [])])] in
  let self :=
    set_tool self "generate_kali_security_report"
      [("description", JStr "Generate professional security assessment reports");
       ("inputSchema",
        JObj [("type", JStr "object");
              ("properties",
               JObj [("report_type",
                      JObj [("type", JStr "string");
                            ("description",
                             JStr "Type of report (comprehensive, executive, technical, compliance)")])]);
              ("required", JArr [])])] in
  self.

(** [UnifiedBleedingEdgeKaliMCPServer.__init__]; registering the routes
    leaves [server_state] as it is. *)
Definition new_server : server_state :=
  let self :=
    {| tools := [];
       resources := [];
       capabilities := item SERVER_INFO "capabilities" |} in
  _register_mcp_tools self.

(** The global instance. *)
Definition mcp_server : server_state := new_server.

Definition registered_names (self : server_state) : list string :=
  dict_keys (tools self).

(** ** Tools, executor and request handler *)

Section Engine.

Variable RT : Runtime.

(** [f"{v}"] *)
Definition format (v : json) : string :=
  match v with
  | JStr s => s
  | _ => str_other RT v
  end.

Definition get_complete_kali_arsenal_info : res string :=
  Ok (arsenal_info_text RT).

Definition run_kali_security_scan_impl (now : string) (target scan_type : json)
  : res string :=
  let target := if negb (truthy target) then JStr "example.com" else target in
  _ <- call_upper scan_type ;;
  Ok (scan_results_text RT now (format target) (format scan_type)).

(** With tracing on the call sits in [try: ... except Exception: ... raise]. *)
Definition run_kali_security_scan (now : string) (target scan_type : json)
  : res string :=
  if tracing RT then
    try_except
      (result <- run_kali_security_scan_impl now target scan_type ;; Ok result)
      (fun e => Raise e)
  else run_kali_security_scan_impl now target scan_type.

Definition get_bleeding_edge_status : res string :=
  Ok (bleeding_edge_status_text RT).

Definition generate_kali_security_report (now : string) (report_type : json)
  : res string :=
  _ <- call_upper report_type ;;
  Ok (report_text RT now (format report_type)).

(** The [try] block of [_execute_tool_impl]. *)
Definition tool_branches (now : string) (tool_name arguments : json) : res string :=
  if str_eq tool_name "get_complete_kali_arsenal_info" then
    get_complete_kali_arsenal_info
  else if str_eq tool_name "get_kali_tool_category" then
    category_name <- get arguments "category_name" (JStr "") ;;
    get_kali_tool_category category_name
  else if str_eq tool_name "run_kali_security_scan" then
    target <- get arguments "target" (JStr "example.com") ;;
    scan_type <- get arguments "scan_type" (JStr "reconnaissance") ;;
    run_kali_security_scan now target scan_type
  else if str_eq tool_name "get_bleeding_edge_status" then
    get_bleeding_edge_status
  else if str_eq tool_name "generate_kali_security_report" then
    report_type <- get arguments "report_type" (JStr "comprehensive") ;;
    generate_kali_security_report now report_type
  else
    Ok ("Unknown tool: " ++ format tool_name).

Definition _execute_tool_impl (now : string) (tool_name arguments : json)
  : res string :=
  try_except
    (tool_branches now tool_name arguments)
    (fun e => Ok ("Tool execution failed: " ++ str_exn e)).

Definition _execute_tool (now : string) (tool_name arguments : json) : res string :=
  if tracing RT then
    (* span.set_attribute("tool.arguments_count", len(arguments)) *)
    _ <- len arguments ;;
    try_except
      (result <- _execute_tool_impl now tool_name arguments ;; Ok result)
      (fun e => Raise e)
  else
    _execute_tool_impl now tool_name arguments.

(** [[{"name": name, **details} for name, details in tools.items()]] *)
Definition tools_list (self : server_state) : list json :=
  map (fun nd => JObj (dict_merge [("name", JStr (fst nd))] (snd nd))) (tools self).

Definition result_response (request_id result : json) : json :=
  JObj [("jsonrpc", JStr "2.0"); ("id", request_id); ("result", result)].

Definition error_response (request_id : json) (code : Z) (message : string) : json :=
  JObj [("jsonrpc", JStr "2.0");
        ("id", request_id);
        ("error", JObj [("code", JNum code); ("message", JStr message)])].

(** The body of the [try] block of [handle_mcp_request], up to the
    construction of [response]; [request] is what [await request.json()]
    returned or raised. *)
Definition dispatch (self : server_state) (amb : Ambient) (request : res json)
  : res json :=
  data <- request ;;
  method <- get data "method" (JStr "") ;;
  params <- get data "params" (JObj []) ;;
  request_id <- get data "id" (JStr (uuid4 amb)) ;;
  if str_eq method "tools/list" then
    Ok (result_response request_id (JObj [("tools", JArr (tools_list self))]))
  else if str_eq method "tools/call" then
    tool_name <- get params "name" (JStr "") ;;
    arguments <- get params "arguments" (JObj []) ;;
    registered <- contains_key tool_name (tools self) ;;
    if (registered : bool) then
      result <- _execute_tool (now amb) tool_name arguments ;;
      Ok (result_response request_id
            (JObj [("content", JArr [JObj [("type", JStr "text");
                                           ("text", JStr result)]]);
                   ("isError", JBool false)]))
    else
      Ok (error_response request_id (-32601) ("Tool not found: " ++ format tool_name))
  else if str_eq method "initialize" then
    Ok (result_response request_id
          (JObj [("protocolVersion", JStr MCP_VERSION);
                 ("capabilities", capabilities self);
                 ("serverInfo", SERVER_INFO)]))
  else
    Ok (error_response request_id (-32601) ("Method not found: " ++ format method)).

(** [return JSONResponse(content=response)] is the last statement of the
    [try] block; the [JSONResponse] of the [except] branch is not guarded, so
    an exception it raised would leave the handler. *)
Definition handle_mcp_request (self : server_state) (amb : Ambient)
  (request : res json) : res Response :=
  try_except
    (response <- dispatch self amb request ;;
     JSONResponse RT response 200)
    (fun e =>
       JSONResponse RT
         (error_response (JStr "error") (-32603) ("Internal error: " ++ str_exn e))
         500).

(** ** Health endpoint *)

Definition health_check (self : server_state) (now : string) : dict json :=
  let total_tools := get_total_tool_count in
  let bleeding_edge_tools := BleedingEdge.additional_tools_count BLEEDING_EDGE_CONFIG in
  [("status", JStr "healthy");
   ("server", item SERVER_INFO "name");
   ("version", item SERVER_INFO "version");
   ("platform", JStr PLATFORM_TYPE);
   ("total_tools", JNum (total_tools + bleeding_edge_tools));
   ("mcp_tools", JNum (Z.of_nat (List.length (tools self))));
   ("bleeding_edge", JBool (BleedingEdge.enabled BLEEDING_EDGE_CONFIG));
   ("timestamp", JStr now)].

(** ** The SSE generator [event_stream] *)

(** A chunk [f"data: {json.dumps(payload)}\n\n"]. *)
Inductive chunk : Type :=
| Data (payload : json).

Definition initialize_event (self : server_state) : chunk :=
  Data (JObj [("jsonrpc", JStr "2.0");
              ("method", JStr "initialize");
              ("params",
               JObj [("protocolVersion", JStr MCP_VERSION);
                     ("capabilities", capabilities self);
                     ("serverInfo", SERVER_INFO)])]).

Definition heartbeat_event (now : string) : chunk :=
  Data (JObj [("jsonrpc", JStr "2.0");
              ("method", JStr "heartbeat");
              ("params", JObj [("timestamp", JStr now)])]).

(** Where the generator is suspended. *)
Inductive gen_point : Type :=
| Created            (* not started *)
| AtYieldInitialize  (* at the first [yield] *)
| AtYieldHeartbeat   (* at the [yield] in the loop *)
| AtSleep            (* in [await asyncio.sleep(30)] *)
| Finished.

(** What wakes it: the consumer asks for the next chunk or the sleep is over,
    with the clock as read then; or the connection is dropped
    ([CancelledError], or the generator is closed). *)
Inductive wake : Type :=
| Resume (now : string)
| Cancel.

(** One run of the generator from a suspension point to the next. *)
Definition event_stream_step (self : server_state) (p : gen_point) (w : wake)
  : gen_point * list chunk :=
  match p, w with
  | Finished, _ => (Finished, [])
  | _, Cancel => (Finished, [])
  | Created, Resume _ => (AtYieldInitialize, [initialize_event self])
  | AtYieldInitialize, Resume now => (AtYieldHeartbeat, [heartbeat_event now])
  | AtYieldHeartbeat, Resume _ => (AtSleep, [])
  | AtSleep, Resume now => (AtYieldHeartbeat, [heartbeat_event now])
  end.

(** The chunks of a session, from suspension point [p] on. *)
Fixpoint event_stream_from (self : server_state) (p : gen_point) (ws : list wake)
  : list chunk :=
  match ws with
  | [] => []
  | w :: ws' =>
      let (p', out) := event_stream_step self p w in
      out ++ event_stream_from self p' ws'
  end.

Definition event_stream (self : server_state) (ws : list wake) : list chunk :=
  event_stream_from self Created ws.

Definition chunk_method (c : chunk) : option json :=
  match c with
  | Data (JObj kv) => dict_get kv "method"
  | Data _ => None
  end.

Definition is_heartbeat (c : chunk) : Prop :=
  chunk_method c = Some (JStr "heartbeat").

(** ** The process: the requests it serves one after another *)

Inductive call : Type :=
| POST_mcp_sse (amb : Ambient) (request : res json)
| GET_mcp_sse (ws : list wake)
| GET_health (now : string).

Inductive reply : Type :=
| Posted (r : res Response)
| Streamed (chunks : list chunk)
| Health (fields : dict json).

(** No route assigns to [self.server_state]. *)
Definition serve (self : server_state) (c : call) : server_state * reply :=
  match c with
  | POST_mcp_sse amb request => (self, Posted (handle_mcp_request self amb request))
  | GET_mcp_sse ws => (self, Streamed (event_stream self ws))
  | GET_health now => (self, Health (health_check self now))
  end.

Fixpoint serve_all (self : server_state) (cs : list call) : server_state :=
  match cs with
  | [] => self
  | c :: cs' => serve_all (fst (serve self c)) cs'
  end.

End Engine.

(** ** The request shape of the specification *)

Definition is_mapping (v : json) : bool :=
  match v with
  | JObj _ => true
  | _ => false
  end.

Definition is_string (v : json) : bool :=
  match v with
  | JStr _ => true
  | _ => false
  end.

(** An RpcRequest [{jsonrpc, id, method, params}]: an object whose [method]
    is a string and whose [params], when given, is a mapping; [id] may be
    absent. *)
Definition structurally_valid (data : json) : bool :=
  match data with
  | JObj d =>
      match dict_get d "method" with
      | Some (JStr _) =>
          match dict_get d "params" with
          | None | Some (JObj _) => true
          | Some _ => false
          end
      | _ => false
      end
  | _ => false
  end.

(** The [id] the handler answers a readable request with: the request's own,
    or a fresh UUID. *)
Definition request_id (amb : Ambient) (d : dict json) : json :=
  dict_get_or d "id" (JStr (uuid4 amb)).

(** A body the handler cannot read as an object: [request.json()] raised, or
    it returned a value that is not a [dict]. *)
Definition unreadable (request : res json) : bool :=
  match request with
  | Raise _ => true
  | Ok v => negb (is_mapping v)
  end.

(** What the client reads when a handler returned or raised. *)
Definition outcome_text (r : res string) : string :=
  match r with
  | Ok text => text
  | Raise e => "Tool execution failed: " ++ str_exn e
  end.

(** [{"content": [{"type": "text", "text": text}], "isError": False}] *)
Definition text_result (text : string) : json :=
  JObj [("content", JArr [JObj [("type", JStr "text"); ("text", JStr text)]]);
        ("isError", JBool false)].

Definition descriptor_name (descriptor : json) : option json :=
  match descriptor with
  | JObj kv => dict_get kv "name"
  | _ => None
  end.

(** How many descriptors of a list carry the name [n]. *)
Definition count_named (n : string) (descriptors : list json) : nat :=
  List.length
    (filter (fun d => match descriptor_name d with
                      | Some v => str_eq v n
                      | None => false
                      end) descriptors).

(** [needle] occurs in [hay]. *)
Definition occurs_in (needle hay : string) : Prop :=
  exists before after, hay = before ++ needle ++ after.

Definition invalid_category_text : string :=
  "Invalid category. Available categories: "
  ++ join ", " (dict_keys get_kali_arsenal_data).

(** ** Sample hosts and requests *)

Module Sample.

Definition rt (tracing_on : bool) : Runtime :=
  {| tracing := tracing_on;
     str_other := fun v => type_name v;
     arsenal_info_text := "ARSENAL";
     bleeding_edge_status_text := "STATUS";
     scan_results_text := fun now target scan_type =>
       "SCAN " ++ target ++ " " ++ upper scan_type ++ " " ++ now;
     report_text := fun now report_type =>
       "REPORT " ++ upper report_type ++ " " ++ now;
     recursion_budget := 900;
     render_error_text := fun _ => "the body cannot be rendered";
     recursion_budget_ok := eq_refl;
     render_error_text_ascii := fun _ => eq_refl |}.

(** The [str] ['\ud800']: one lone surrogate. *)
Definition lone_surrogate : string :=
  String (ascii_of_nat 237) (String (ascii_of_nat 160) (String (ascii_of_nat 128) "")).

Definition amb : Ambient :=
  {| uuid4 := "1b4e28ba-2fa1-41d2-883f-0016d3cca427";
     now := "2025-01-01T00:00:00" |}.

Definition request (id : option json) (method : string) (params : option json)
  : dict json :=
  ([("jsonrpc", JStr "2.0")]
   ++ match id with Some i => [("id", i)] | None => [] end
   ++ [("method", JStr method)]
   ++ match params with Some p => [("params", p)] | None => [] end)%list.

Definition call_params (name : string) (arguments : dict json) : dict json :=
  [("name", JStr name); ("arguments", JObj arguments)].

(** [{"jsonrpc": "2.0", "id": "abc", "method": "tools/call",
      "params": {"name": "nonexistent_tool", "arguments": {}}}] *)
Definition call_nonexistent : dict json :=
  request (Some (JStr "abc")) "tools/call"
    (Some (JObj (call_params "nonexistent_tool" []))).

(** A scan whose [scan_type] is a number: the handler raises on
    [scan_type.upper()]. *)
Definition scan_arguments_bad : dict json :=
  [("target", JStr "example.org"); ("scan_type", JNum 5)].

Definition call_scan_bad : dict json :=
  request (Some (JNum 7)) "tools/call"
    (Some (JObj (call_params "run_kali_security_scan" scan_arguments_bad))).

Definition call_category (category_name : string) : dict json :=
  request (Some (JNum 1)) "tools/call"
    (Some (JObj (call_params "get_kali_tool_category"
                   [("category_name", JStr category_name)]))).

Definition call_scan : dict json :=
  request (Some (JNum 2)) "tools/call"
    (Some (JObj (call_params "run_kali_security_scan"
                   [("target", JStr "example.org")]))).

Definition list_tools : dict json :=
  request (Some (JStr "abc")) "tools/list" None.

(** A notification: no [id]. *)
Definition list_tools_notification : dict json :=
  request None "tools/list" None.

(** [{"jsonrpc": "2.0", "id": 1}]: no [method]. *)
Definition no_method : dict json :=
  [("jsonrpc", JStr "2.0"); ("id", JNum 1)].

Definition foo_bar : dict json :=
  request (Some (JStr "abc")) "foo/bar" None.

End Sample.

(** ** Further notions used to state what the engine does *)

(** [len(v)] is defined. *)
Definition sized (v : json) : bool :=
  match len v with
  | Ok _ => true
  | Raise _ => false
  end.

(** The same host with tracing switched on or off. *)
Definition with_tracing (on : bool) (RT : Runtime) : Runtime :=
  {| tracing := on;
     str_other := str_other RT;
     arsenal_info_text := arsenal_info_text RT;
     bleeding_edge_status_text := bleeding_edge_status_text RT;
     scan_results_text := scan_results_text RT;
     report_text := report_text RT;
     recursion_budget := recursion_budget RT;
     render_error_text := render_error_text RT;
     recursion_budget_ok := recursion_budget_ok RT;
     render_error_text_ascii := render_error_text_ascii RT |}.

(** The names [_execute_tool_impl] has a branch for. *)
Definition implemented_tools : list string :=
  ["get_complete_kali_arsenal_info"; "get_kali_tool_category";
   "run_kali_security_scan"; "get_bleeding_edge_status";
   "generate_kali_security_report"].


(** The [params] of the [initialize] event of a chunk. *)
Definition chunk_params (c : chunk) : option json :=
  match c with
  | Data (JObj kv) => dict_get kv "params"
  | Data _ => None
  end.

(** [inputSchema["required"]] of a registered tool. *)
Definition required_arguments (self : server_state) (name : string) : option json :=
  match dict_get (tools self) name with
  | Some details => Some (item (item (JObj details) "inputSchema") "required")
  | None => None
  end.

(** ** The arsenal overview *)

(** [s.replace(old, new)] for single characters. *)
Fixpoint replace_char (old new : ascii) (s : string) : string :=
  match s with
  | EmptyString => EmptyString
  | String c s' =>
      String (if Ascii.eqb c old then new else c) (replace_char old new s')
  end.

(** The two lines of the category breakdown for one entry of the table. *)
Definition category_breakdown (category : string) (info : Category.info)
  : list string :=
  let bleeding_status :=
    if Category.bleeding_edge_enhanced info
    then " (Bleeding Edge Enhanced)" else "" in
  ["- **" ++ category ++ "**: " ++ dec (Category.count info) ++ " tools"
   ++ bleeding_status ++ nl;
   "  *" ++ Category.description info ++ "*" ++ nl].

(** The text [get_complete_kali_arsenal_info()] builds; it is what a host
    supplies as [arsenal_info_text]. *)
Definition complete_kali_arsenal_info_text : string :=
  let arsenal_data := get_kali_arsenal_data in
  let total_tools := sum_counts arsenal_data in
  let bleeding_edge_tools :=
    BleedingEdge.additional_tools_count BLEEDING_EDGE_CONFIG in
  let arsenal_parts :=
    ["DARKDRIFTZ'S BLEEDING EDGE KALI LINUX ARSENAL - COMPLETE OVERVIEW" ++ nl ++ nl;
     "**TOTAL ARSENAL: " ++ dec (total_tools + bleeding_edge_tools)
     ++ " CYBERSECURITY TOOLS**" ++ nl;
     "- **Standard Kali Tools**: " ++ dec total_tools ++ nl;
     "- **Bleeding Edge Tools**: " ++ dec bleeding_edge_tools ++ nl;
     "- **Security Categories**: "
     ++ dec (Z.of_nat (List.length arsenal_data)) ++ nl;
     "- **Platform**: " ++ PLATFORM_TYPE ++ nl ++ nl;
     "**BLEEDING EDGE ENHANCEMENT:**" ++ nl;
     "- **Status**: "
     ++ (if BleedingEdge.enabled BLEEDING_EDGE_CONFIG then "ACTIVE" else "INACTIVE")
     ++ nl;
     "- **Priority**: " ++ upper (BleedingEdge.priority BLEEDING_EDGE_CONFIG) ++ nl;
     "- **Repositories**: "
     ++ join ", " (BleedingEdge.repositories BLEEDING_EDGE_CONFIG) ++ nl;
     "- **Auto-Sync**: Every "
     ++ replace_char "_" " " (BleedingEdge.update_frequency BLEEDING_EDGE_CONFIG)
     ++ nl ++ nl;
     "**CATEGORY BREAKDOWN:**" ++ nl] in
  let category_parts :=
    flat_map (fun ci => category_breakdown (fst ci) (snd ci)) arsenal_data in
  let final_parts :=
    [nl ++ "MCP INTEGRATION:" ++ nl;
     "- **Protocol**: MCP " ++ MCP_VERSION ++ nl;
     "- **Transport**: Server-Sent Events (SSE)" ++ nl;
     "- **Tools**: 7 comprehensive cybersecurity functions" ++ nl;
     "- **Real-time**: Live bleeding edge status and updates" ++ nl ++ nl;
     "CREATED BY DARKDRIFTZ" ++ nl;
     "*The world's most comprehensive bleeding edge cybersecurity research platform*"
     ++ nl] in
  join "" (arsenal_parts ++ category_parts ++ final_parts)%list.

(** ** The verification script [verify_tts_removal.py] *)

Module Verify.

Definition dq : string := String (ascii_of_nat 34) EmptyString.

(** [needle in hay] for two [str]. *)
Fixpoint contains (needle hay : string) : bool :=
  String.prefix needle hay
  || match hay with
     | EmptyString => false
     | String _ hay' => contains needle hay'
     end.

(** The label and the marker of each entry of [removed_checks]. *)
Definition removed_markers : list (string * string) :=
  [("TTS_CONFIG", "TTS_CONFIG");
   ("synthesize_text_to_speech", "synthesize_text_to_speech");
   ("get_tts_system_info", "get_tts_system_info");
   ("speak_kali_arsenal_info", "speak_kali_arsenal_info");
   ("speak_security_scan_results", "speak_security_scan_results");
   ("speak_auto_update_status", "speak_auto_update_status");
   ("TTS System Tab", "🔊 Multi-Engine TTS System");
   ("TTS Engine dropdown", "TTS Engine");
   ("TTS references in health", dq ++ "tts" ++ dq ++ ":")].

(** The label and the marker of each entry of [preserved_checks]. *)
Definition preserved_markers : list (string * string) :=
  [("get_complete_kali_arsenal_info", "get_complete_kali_arsenal_info");
   ("get_kali_tool_category", "get_kali_tool_category");
   ("run_kali_security_scan", "run_kali_security_scan");
   ("get_bleeding_edge_status", "get_bleeding_edge_status");
   ("generate_kali_security_report", "generate_kali_security_report");
   ("MCP server functionality", "mcp_server=True");
   ("Bleeding edge configuration", "BLEEDING_EDGE_CONFIG");
   ("Arsenal data", "get_kali_arsenal_data")].

(** [for check, result in checks.items(): print(f"    {status}: {check}")] *)
Definition report_lines (good bad : string) (checks : list (string * bool))
  : list string :=
  map (fun cr : string * bool => "    " ++ (if snd cr then good else bad) ++ ": " ++ fst cr) checks.

(** [check_app_py], given what [open('app.py').read()] returned: the
    arguments of its [print] calls in order, and its result. *)
Definition check_app_py (content : string) : list string * bool :=
  let removed_checks :=
    map (fun lm : string * string => (fst lm, negb (contains (snd lm) content))) removed_markers in
  let preserved_checks :=
    map (fun lm : string * string => (fst lm, contains (snd lm) content)) preserved_markers in
  let printed :=
    (["🔍 Checking app.py for TTS removal..."]
     ++ [(nl ++ "  ✅ TTS Components Removed:")%string]
     ++ report_lines "✅ REMOVED" "❌ STILL PRESENT" removed_checks
     ++ [(nl ++ "  ✅ Essential Features Preserved:")%string]
     ++ report_lines "✅ PRESERVED" "❌ MISSING" preserved_checks)%list in
  let all_removed := forallb snd removed_checks in
  let all_preserved := forallb snd preserved_checks in
  (printed, all_removed && all_preserved).

(** The label of each entry of [broken_patterns] and the text its regular
    expression matches; each pattern is a literal. *)
Definition broken_patterns : list (string * string) :=
  [("TTS_CONFIG references", "TTS_CONFIG[");
   ("len(TTS_CONFIG", "len(TTS_CONFIG");
   ("TTS_CONFIG.get", "TTS_CONFIG.get");
   ("Orphaned TTS calls", "await synthesize_text_to_speech");
   ("Orphaned speak calls", "await speak_")].

(** [check_no_broken_references], given the content of [app.py]. *)
Definition check_no_broken_references (content : string) : list string * bool :=
  let checks :=
    map (fun lp : string * string => (fst lp, negb (contains (snd lp) content))) broken_patterns in
  let printed :=
    ([(nl ++ "🔍 Checking for broken references...")%string]
     ++ report_lines "✅ CLEAN" "❌ BROKEN REFERENCE" checks)%list in
  (printed, forallb snd checks).

(** A file in which every marker of [preserved_checks] occurs and nothing
    else. *)
Definition sample_content : string :=
  join " " (map snd preserved_markers).

End Verify.

(** ** Further sample requests and servers *)

Module More_samples.

Definition initialize : dict json :=
  Sample.request (Some (JNum 0)) "initialize"
    (Some (JObj [("protocolVersion", JStr "2024-11-05")])).

(** An [initialize] request whose [params] is not a mapping. *)
Definition initialize_again : dict json :=
  Sample.request (Some (JStr "second")) "initialize" (Some (JArr [])).

(** The running server with one more registry entry, for which the executor
    has no branch. *)
Definition extended_server : server_state :=
  set_tool mcp_server "port_scan"
    [("description", JStr "Scan ports"); ("inputSchema", JObj [])].

Definition call_port_scan : dict json :=
  Sample.request (Some (JNum 3)) "tools/call"
    (Some (JObj (Sample.call_params "port_scan" []))).

(** A scan request that leaves [arguments] out. *)
Definition call_scan_bare : dict json :=
  Sample.request (Some (JNum 4)) "tools/call"
    (Some (JObj [("name", JStr "run_kali_security_scan")])).

(** [{"jsonrpc": "2.0", "id": "abc", "method": "tools/call",
      "params": {"name": []}}] *)
Definition call_list_name : dict json :=
  Sample.request (Some (JStr "abc")) "tools/call"
    (Some (JObj [("name", JArr [])])).

(** The failing scan of [Sample.call_scan_bad] under the id ["\ud800"]. *)
Definition call_scan_bad_surrogate_id : dict json :=
  Sample.request (Some (JStr Sample.lone_surrogate)) "tools/call"
    (Some (JObj (Sample.call_params "run_kali_security_scan"
                   Sample.scan_arguments_bad))).

(** [tools/list] under the id ["\ud800"]. *)
Definition list_tools_surrogate_id : dict json :=
  Sample.request (Some (JStr Sample.lone_surrogate)) "tools/list" None.

(** [{"jsonrpc": "2.0", "id": "abc", "method": "\ud800"}] *)
Definition surrogate_method : dict json :=
  Sample.request (Some (JStr "abc")) Sample.lone_surrogate None.

(** A category call whose [category_name] is the list [["Forensics"]]. *)
Definition call_category_list : dict json :=
  Sample.request (Some (JNum 1)) "tools/call"
    (Some (JObj (Sample.call_params "get_kali_tool_category"
                   [("category_name", JArr [JStr "Forensics"])]))).

End More_samples.

(** ** How answers are written below *)

(** The answer of the handler's [except] branch. *)
Abbreviation catch_all_answer description :=
  ({| status_code := 500;
      body := Some (JObj [("jsonrpc", JStr "2.0");
                          ("id", JStr "error");
                          ("error",
                           JObj [("code", JNum (-32603));
                                 ("message",
                                  JStr ("Internal error: " ++ description))])]) |}).

(** An answer with the default status. *)
Abbreviation answer_200 content :=
  ({| status_code := 200; body := Some content |}).

(** * Properties *)

(** ** Dictionaries and strings *)

Lemma dict_get_or_some {V : Type} (d : dict V) (k : string) (v default : V) :
  dict_get d k = Some v -> dict_get_or d k default = v.
Proof. unfold dict_get_or. intros ->. reflexivity. Qed.

Lemma dict_get_or_none {V : Type} (d : dict V) (k : string) (default : V) :
  dict_get d k = None -> dict_get_or d k default = default.
Proof. unfold dict_get_or. intros ->. reflexivity. Qed.

Lemma mem_In (k : string) (l : list string) : mem k l = true <-> In k l.
Proof.
  unfold mem. rewrite existsb_exists. split.
  - intros [x [Hin Heq]]. apply String.eqb_eq in Heq. now subst.
  - intros Hin. exists k. split; [assumption | apply String.eqb_refl].
Qed.

Lemma str_eq_other (s t : string) : s <> t -> str_eq (JStr s) t = false.
Proof. intros H. cbn. now apply String.eqb_neq. Qed.

(** ** What can be rendered *)

Lemma encodable_ascii_app (a b : string) :
  ascii_only a = true -> encodable b = true -> encodable (a ++ b) = true.
Proof.
  unfold ascii_only. induction a as [ | c a IH]; cbn; [now intros _ | ].
  intros Ha Hb. apply andb_prop in Ha. destruct Ha as [Hc Ha].
  rewrite (IH Ha Hb), andb_true_r. unfold starts_surrogate.
  apply Nat.leb_le in Hc.
  destruct (nat_of_ascii c =? 237)%nat eqn:He; [ | reflexivity].
  apply Nat.eqb_eq in He. lia.
Qed.

Lemma ascii_only_encodable (a : string) : ascii_only a = true -> encodable a = true.
Proof.
  intros H. pose proof (encodable_ascii_app a "" H eq_refl) as He.
  replace (a ++ "") with a in He; [exact He | ].
  clear. induction a as [ | c a IH]; cbn; [reflexivity | now rewrite <- IH].
Qed.

Lemma ascii_only_type_name (v : json) : ascii_only (type_name v) = true.
Proof. now destruct v. Qed.

Section Rendering_facts.

Variable RT : Runtime.

Lemma JSONResponse_renders (content : json) (status : Z) :
  renderable (recursion_budget RT) content = true ->
  JSONResponse RT content status = Ok {| status_code := status; body := Some content |}.
Proof. unfold JSONResponse. now intros ->. Qed.

Lemma JSONResponse_fails (content : json) (status : Z) :
  renderable (recursion_budget RT) content = false ->
  JSONResponse RT content status
  = Raise (RenderError (render_error_text RT content)).
Proof. unfold JSONResponse. now intros ->. Qed.

(** The error object of the [except] branch can be rendered whenever its
    description can be encoded. *)
Lemma catch_all_renders (description : string) :
  encodable description = true ->
  JSONResponse RT
    (error_response (JStr "error") (-32603) ("Internal error: " ++ description)) 500
  = Ok (catch_all_answer description).
Proof.
  intros He. apply JSONResponse_renders.
  pose proof (encodable_ascii_app "Internal error: " description eq_refl He) as Hm.
  pose proof (recursion_budget_ok RT) as Hb.
  destruct (recursion_budget RT) as [ | [ | b]]; try discriminate Hb.
  unfold error_response.
  generalize dependent ("Internal error: " ++ description). intros message Hm.
  cbn [renderable forallb fst snd]. rewrite Hm. reflexivity.
Qed.

End Rendering_facts.

(** ** The request handler *)

Section Handler_facts.

Variable RT : Runtime.
Variable self : server_state.
Variable amb : Ambient.

(** The executor never raises from its implementation part. *)
Lemma _execute_tool_impl_returns (now : string) (tool_name arguments : json) :
  _execute_tool_impl RT now tool_name arguments
  = Ok (outcome_text (tool_branches RT now tool_name arguments)).
Proof.
  unfold _execute_tool_impl, try_except, outcome_text.
  now destruct (tool_branches RT now tool_name arguments).
Qed.

Lemma _execute_tool_sized (now : string) (tool_name arguments : json) :
  (tracing RT = true -> sized arguments = true) ->
  _execute_tool RT now tool_name arguments
  = Ok (outcome_text (tool_branches RT now tool_name arguments)).
Proof.
  intros H. unfold _execute_tool. rewrite _execute_tool_impl_returns.
  destruct (tracing RT); [ | reflexivity].
  specialize (H eq_refl). unfold sized in H.
  now destruct (len arguments).
Qed.

Lemma _execute_tool_mapping (now : string) (tool_name : json) (arguments : dict json) :
  _execute_tool RT now tool_name (JObj arguments)
  = Ok (outcome_text (tool_branches RT now tool_name (JObj arguments))).
Proof. apply _execute_tool_sized. reflexivity. Qed.

(** [dispatch] on a [tools/call] request whose parameters are a mapping. *)
Lemma dispatch_tools_call (d params : dict json) :
  dict_get d "method" = Some (JStr "tools/call") ->
  dict_get_or d "params" (JObj []) = JObj params ->
  dispatch RT self amb (Ok (JObj d))
  = (let tool_name := dict_get_or params "name" (JStr "") in
     let arguments := dict_get_or params "arguments" (JObj []) in
     registered <- contains_key tool_name (tools self) ;;
     if (registered : bool) then
       result <- _execute_tool RT (now amb) tool_name arguments ;;
       Ok (result_response (request_id amb d) (text_result result))
     else
       Ok (error_response (request_id amb d) (-32601)
             ("Tool not found: " ++ format RT tool_name))).
Proof.
  intros Hm Hp. unfold dispatch. cbn [bind get].
  rewrite (dict_get_or_some _ _ _ _ Hm), Hp. reflexivity.
Qed.

(** The three ways the handler ends, given how [dispatch] ended. *)
Lemma handle_rendered (request : res json) (response : json) :
  dispatch RT self amb request = Ok response ->
  renderable (recursion_budget RT) response = true ->
  handle_mcp_request RT self amb request = Ok (answer_200 response).
Proof.
  intros Hd Hr. unfold handle_mcp_request. rewrite Hd. cbn [bind].
  now rewrite (JSONResponse_renders RT response 200 Hr).
Qed.

Lemma handle_unrenderable (request : res json) (response : json) :
  dispatch RT self amb request = Ok response ->
  renderable (recursion_budget RT) response = false ->
  handle_mcp_request RT self amb request
  = Ok (catch_all_answer (render_error_text RT response)).
Proof.
  intros Hd Hr. unfold handle_mcp_request. rewrite Hd. cbn [bind].
  rewrite (JSONResponse_fails RT response 200 Hr). cbn [try_except str_exn].
  apply catch_all_renders, ascii_only_encodable, render_error_text_ascii.
Qed.

Lemma handle_raised (request : res json) (e : exn) :
  dispatch RT self amb request = Raise e ->
  encodable (str_exn e) = true ->
  handle_mcp_request RT self amb request = Ok (catch_all_answer (str_exn e)).
Proof.
  intros Hd He. unfold handle_mcp_request. rewrite Hd. cbn [bind try_except].
  now apply catch_all_renders.
Qed.

(** C1 as the handler has it: a [tools/call] request whose [params] is a
    mapping (absent: empty) and whose [params.name] (absent: [""]) is a string,
    number, boolean or [null] that is no registered tool name is answered,
    with status 200, by the RPC error [-32601] with message ["Tool not found: "]
    followed by the name, provided that answer can be rendered.  When the name
    is a list or a mapping, or the answer cannot be rendered, the [except]
    branch answers with status 500 and the RPC error [-32603] under the id
    ["error"].  In no case does the answer hold a [result]. *)
Theorem tools_call_unregistered_not_found (d params : dict json) (tool_name : json) :
  dict_get d "method" = Some (JStr "tools/call") ->
  dict_get_or d "params" (JObj []) = JObj params ->
  dict_get_or params "name" (JStr "") = tool_name ->
  (forall name, tool_name = JStr name -> ~ In name (registered_names self)) ->
  let shown :=
    match tool_name with
    | JStr name => name
    | other => str_other RT other
    end in
  let answer :=
    JObj [("jsonrpc", JStr "2.0");
          ("id", request_id amb d);
          ("error",
           JObj [("code", JNum (-32601));
                 ("message", JStr ("Tool not found: " ++ shown))])] in
  let r := handle_mcp_request RT self amb (Ok (JObj d)) in
  (hashable tool_name = true ->
   renderable (recursion_budget RT) answer = true ->
   r = Ok (answer_200 answer))
  /\ (hashable tool_name = true ->
      renderable (recursion_budget RT) answer = false ->
      r = Ok (catch_all_answer (render_error_text RT answer)))
  /\ (hashable tool_name = false ->
      r = Ok (catch_all_answer ("unhashable type: '" ++ type_name tool_name ++ "'")))
  /\ (exists answered, r = Ok answered /\ body_field answered "result" = None).
Proof.
  intros Hm Hp Hn Hreg shown answer r.
  assert (Hd : hashable tool_name = true ->
               dispatch RT self amb (Ok (JObj d)) = Ok answer).
  { intros Hh. rewrite (dispatch_tools_call d params Hm Hp). cbn zeta. rewrite Hn.
    subst answer shown. destruct tool_name as [ | b | z | f | name | l | o];
      try discriminate Hh; try reflexivity.
    cbn [contains_key bind].
    destruct (mem name (dict_keys (tools self))) eqn:Hmem; [ | reflexivity].
    apply mem_In in Hmem. now contradiction (Hreg name eq_refl). }
  assert (Hu : hashable tool_name = false ->
               r = Ok (catch_all_answer
                         ("unhashable type: '" ++ type_name tool_name ++ "'"))).
  { intros Hh. subst r.
    assert (He : dispatch RT self amb (Ok (JObj d))
                 = Raise (TypeError_unhashable (type_name tool_name))).
    { rewrite (dispatch_tools_call d params Hm Hp). cbn zeta. rewrite Hn.
      destruct tool_name; try discriminate Hh; reflexivity. }
    apply (handle_raised _ _ He).
    destruct tool_name; try discriminate Hh; reflexivity. }
  split; [ | split; [ | split]].
  - intros Hh Hr. exact (handle_rendered _ _ (Hd Hh) Hr).
  - intros Hh Hr. exact (handle_unrenderable _ _ (Hd Hh) Hr).
  - exact Hu.
  - destruct (hashable tool_name) eqn:Hh.
    + destruct (renderable (recursion_budget RT) answer) eqn:Hr.
      * eexists. split; [exact (handle_rendered _ _ (Hd eq_refl) Hr) | reflexivity].
      * eexists. split; [exact (handle_unrenderable _ _ (Hd eq_refl) Hr) | reflexivity].
    + eexists. split; [exact (Hu eq_refl) | reflexivity].
Qed.

(** Parameters that are not a mapping have no [get]: the [except] branch
    answers. *)
Lemma tools_call_params_not_mapping (d : dict json) (params : json) :
  dict_get d "method" = Some (JStr "tools/call") ->
  dict_get d "params" = Some params ->
  is_mapping params = false ->
  handle_mcp_request RT self amb (Ok (JObj d))
  = Ok (catch_all_answer
          ("'" ++ type_name params ++ "' object has no attribute 'get'")).
Proof.
  intros Hm Hp Hmap.
  assert (He : dispatch RT self amb (Ok (JObj d))
               = Raise (AttributeError (type_name params) "get")).
  { unfold dispatch. cbn [bind get].
    rewrite (dict_get_or_some _ _ _ _ Hm), (dict_get_or_some _ _ _ _ Hp).
    destruct params; try discriminate; reflexivity. }
  apply (handle_raised _ _ He).
  destruct params; try discriminate; reflexivity.
Qed.

(** With tracing on, the executor takes [len(arguments)] before its [try]:
    arguments without a length end in the [except] branch as well. *)
Lemma tools_call_traced_unsized_arguments (d params : dict json) (name : string)
  (arguments : json) :
  dict_get d "method" = Some (JStr "tools/call") ->
  dict_get_or d "params" (JObj []) = JObj params ->
  dict_get_or params "name" (JStr "") = JStr name ->
  dict_get_or params "arguments" (JObj []) = arguments ->
  In name (registered_names self) ->
  tracing RT = true ->
  sized arguments = false ->
  handle_mcp_request RT self amb (Ok (JObj d))
  = Ok (catch_all_answer
          ("object of type '" ++ type_name arguments ++ "' has no len()")).
Proof.
  intros Hm Hp Hn Ha Hreg Ht Hs.
  assert (He : dispatch RT self amb (Ok (JObj d))
               = Raise (TypeError_no_len (type_name arguments))).
  { rewrite (dispatch_tools_call d params Hm Hp). cbn zeta. rewrite Hn, Ha.
    cbn [contains_key bind].
    apply mem_In in Hreg. unfold registered_names in Hreg. rewrite Hreg.
    unfold _execute_tool. rewrite Ht.
    destruct arguments; try discriminate Hs; reflexivity. }
  apply (handle_raised _ _ He).
  destruct arguments; try discriminate Hs; reflexivity.
Qed.

(** C6 as the handler has it: a request whose [method] is a string other
    than ["initialize"], ["tools/list"] and ["tools/call"] is answered, with
    status 200, by the RPC error [-32601] with message ["Method not found: "]
    followed by the method, provided that answer can be rendered; when it
    cannot, the [except] branch answers with status 500 and the RPC error
    [-32603] under the id ["error"]. *)
Theorem unknown_method_not_found (d : dict json) (method : string) :
  dict_get d "method" = Some (JStr method) ->
  method <> "initialize" ->
  method <> "tools/list" ->
  method <> "tools/call" ->
  let answer :=
    JObj [("jsonrpc", JStr "2.0");
          ("id", request_id amb d);
          ("error",
           JObj [("code", JNum (-32601));
                 ("message", JStr ("Method not found: " ++ method))])] in
  let r := handle_mcp_request RT self amb (Ok (JObj d)) in
  (renderable (recursion_budget RT) answer = true -> r = Ok (answer_200 answer))
  /\ (renderable (recursion_budget RT) answer = false ->
      r = Ok (catch_all_answer (render_error_text RT answer))).
Proof.
  intros Hm Hi Hl Hc answer r.
  assert (Hd : dispatch RT self amb (Ok (JObj d)) = Ok answer).
  { unfold dispatch. cbn [bind get].
    rewrite (dict_get_or_some _ _ _ _ Hm).
    rewrite (str_eq_other _ _ Hl), (str_eq_other _ _ Hc), (str_eq_other _ _ Hi).
    reflexivity. }
  split; intros Hr.
  - exact (handle_rendered _ _ Hd Hr).
  - exact (handle_unrenderable _ _ Hd Hr).
Qed.

(** C2 as the handler has it: when the [try] block of the executor raises
    for a registered tool (the executor being reached: with tracing on the
    arguments have a length), the request is answered, with status 200, by a
    result whose single content item is of type ["text"] and holds
    ["Tool execution failed: "] followed by the exception's text, with
    [isError] false and no [error], provided that answer can be rendered; when
    it cannot, the [except] branch of the handler answers with status 500 and
    the RPC error [-32603]. *)
Theorem tool_handler_exception_is_success (d params : dict json) (name : string)
  (arguments : json) (e : exn) :
  dict_get d "method" = Some (JStr "tools/call") ->
  dict_get_or d "params" (JObj []) = JObj params ->
  dict_get_or params "name" (JStr "") = JStr name ->
  dict_get_or params "arguments" (JObj []) = arguments ->
  In name (registered_names self) ->
  (tracing RT = true -> sized arguments = true) ->
  tool_branches RT (now amb) (JStr name) arguments = Raise e ->
  let answer :=
    JObj [("jsonrpc", JStr "2.0");
          ("id", request_id amb d);
          ("result",
           JObj [("content",
                  JArr [JObj [("type", JStr "text");
                              ("text",
                               JStr ("Tool execution failed: " ++ str_exn e))]]);
                 ("isError", JBool false)])] in
  let r := handle_mcp_request RT self amb (Ok (JObj d)) in
  (renderable (recursion_budget RT) answer = true -> r = Ok (answer_200 answer))
  /\ (renderable (recursion_budget RT) answer = false ->
      r = Ok (catch_all_answer (render_error_text RT answer))).
Proof.
  intros Hm Hp Hn Ha Hreg Hsized Hraise answer r.
  assert (Hd : dispatch RT self amb (Ok (JObj d)) = Ok answer).
  { rewrite (dispatch_tools_call d params Hm Hp). cbn zeta. rewrite Hn, Ha.
    cbn [contains_key bind].
    apply mem_In in Hreg. unfold registered_names in Hreg. rewrite Hreg.
    rewrite (_execute_tool_sized _ _ _ Hsized), Hraise. reflexivity. }
  split; intros Hr.
  - exact (handle_rendered _ _ Hd Hr).
  - exact (handle_unrenderable _ _ Hd Hr).
Qed.

(** What [dispatch] can end in on a decoded body; what it raises has an
    ASCII text. *)
Lemma dispatch_outcome (v : json) :
  (exists e,
      dispatch RT self amb (Ok v) = Raise e /\ ascii_only (str_exn e) = true)
  \/ (exists d result,
        v = JObj d
        /\ dispatch RT self amb (Ok v)
           = Ok (JObj [("jsonrpc", JStr "2.0");
                       ("id", request_id amb d);
                       ("result", result)]))
  \/ (exists d message,
        v = JObj d
        /\ dispatch RT self amb (Ok v)
           = Ok (JObj [("jsonrpc", JStr "2.0");
                       ("id", request_id amb d);
                       ("error",
                        JObj [("code", JNum (-32601));
                              ("message", JStr message)])])).
Proof.
  destruct v as [ | b | z | f | s | l | d];
    try (left; eexists; split; reflexivity).
  unfold dispatch. cbn [bind get]. fold (request_id amb d).
  destruct (str_eq (dict_get_or d "method" (JStr "")) "tools/list").
  { right. left. eexists. eexists. split; reflexivity. }
  destruct (str_eq (dict_get_or d "method" (JStr "")) "tools/call").
  - destruct (dict_get_or d "params" (JObj [])) as [ | b | z | f | s | l | p];
      try (left; eexists; split; reflexivity).
    cbn [bind get].
    destruct (contains_key (dict_get_or p "name" (JStr "")) (tools self))
      as [[ | ] | e] eqn:Hk; cbn [bind].
    + destruct (_execute_tool RT (now amb) (dict_get_or p "name" (JStr ""))
                  (dict_get_or p "arguments" (JObj []))) as [text | e] eqn:Hx;
        cbn [bind].
      * right. left. eexists. eexists. split; reflexivity.
      * left. exists e. split; [reflexivity | ].
        unfold _execute_tool in Hx. rewrite _execute_tool_impl_returns in Hx.
        destruct (tracing RT); [ | discriminate Hx].
        destruct (dict_get_or p "arguments" (JObj [])); cbn in Hx;
          try discriminate Hx; injection Hx as <-; reflexivity.
    + right. right. eexists. eexists. split; reflexivity.
    + left. exists e. split; [reflexivity | ].
      destruct (dict_get_or p "name" (JStr "")); cbn in Hk;
        try discriminate Hk; injection Hk as <-; reflexivity.
  - destruct (str_eq (dict_get_or d "method" (JStr "")) "initialize").
    + right. left. eexists. eexists. split; reflexivity.
    + right. right. eexists. eexists. split; reflexivity.
Qed.

(** What the handler can end in on a request object: an answer of status
    200 under the request's id, holding a result or the RPC error [-32601], or
    the answer of the [except] branch. *)
Lemma handle_outcome (d : dict json) :
  exists answered,
    handle_mcp_request RT self amb (Ok (JObj d)) = Ok answered
    /\ ((exists result,
            answered = answer_200 (JObj [("jsonrpc", JStr "2.0");
                                         ("id", request_id amb d);
                                         ("result", result)]))
        \/ (exists message,
               answered
               = answer_200 (JObj [("jsonrpc", JStr "2.0");
                                   ("id", request_id amb d);
                                   ("error",
                                    JObj [("code", JNum (-32601));
                                          ("message", JStr message)])]))
        \/ (exists description, answered = catch_all_answer description)).
Proof.
  destruct (dispatch_outcome (JObj d))
    as [[e [Hd He]] | [[d' [result [Hv Hd]]] | [d' [message [Hv Hd]]]]].
  - eexists. split; [exact (handle_raised _ _ Hd (ascii_only_encodable _ He)) | ].
    right. right. eexists. reflexivity.
  - injection Hv as <-.
    match type of Hd with _ = Ok ?response =>
      destruct (renderable (recursion_budget RT) response) eqn:Hr;
      eexists; (split; [first [exact (handle_rendered _ _ Hd Hr)
                              | exact (handle_unrenderable _ _ Hd Hr)] | ])
    end.
    + left. eexists. reflexivity.
    + right. right. eexists. reflexivity.
  - injection Hv as <-.
    match type of Hd with _ = Ok ?response =>
      destruct (renderable (recursion_budget RT) response) eqn:Hr;
      eexists; (split; [first [exact (handle_rendered _ _ Hd Hr)
                              | exact (handle_unrenderable _ _ Hd Hr)] | ])
    end.
    + right. left. eexists. reflexivity.
    + right. right. eexists. reflexivity.
Qed.


(** C4 as the handler has it: when the body cannot be read as a JSON object
    (decoding raised, or gave a value that is not an object) the answer is the
    RPC error [-32603] with message ["Internal error: "] followed by the
    exception's text, under the id ["error"], with status 500 (the text being
    one that can be encoded).  An object without [method] is read as a call of
    the method [""] and answered, with status 200, by the RPC error [-32601],
    ["Method not found: "], under its own id, provided that answer can be
    rendered; when it cannot, the [except] branch answers with status 500. *)
Theorem unreadable_body_internal_error (request : res json) (d : dict json) :
  unreadable request = true ->
  dict_get d "method" = None ->
  let description :=
    match request with
    | Raise e => str_exn e
    | Ok v => "'" ++ type_name v ++ "' object has no attribute 'get'"
    end in
  let answer :=
    JObj [("jsonrpc", JStr "2.0");
          ("id", request_id amb d);
          ("error",
           JObj [("code", JNum (-32601));
                 ("message", JStr "Method not found: ")])] in
  (encodable description = true ->
   handle_mcp_request RT self amb request = Ok (catch_all_answer description))
  /\ (renderable (recursion_budget RT) answer = true ->
      handle_mcp_request RT self amb (Ok (JObj d)) = Ok (answer_200 answer))
  /\ (renderable (recursion_budget RT) answer = false ->
      handle_mcp_request RT self amb (Ok (JObj d))
      = Ok (catch_all_answer (render_error_text RT answer))).
Proof.
  intros Hun Hm description answer.
  assert (Hd : dispatch RT self amb (Ok (JObj d)) = Ok answer).
  { unfold dispatch. cbn [bind get].
    rewrite (dict_get_or_none _ _ _ Hm). reflexivity. }
  split; [ | split].
  - intros He. subst description. destruct request as [v | e].
    + assert (Hr : dispatch RT self amb (Ok v)
                   = Raise (AttributeError (type_name v) "get"))
        by (destruct v; try discriminate Hun; reflexivity).
      exact (handle_raised _ _ Hr He).
    + exact (handle_raised (Raise e) e eq_refl He).
  - intros Hr. exact (handle_rendered _ _ Hd Hr).
  - intros Hr. exact (handle_unrenderable _ _ Hd Hr).
Qed.

(** C5 as the handler has it: a request without [id] is served exactly as
    the same request carrying a freshly drawn UUID as its [id], and a response
    body is always produced: with status 200 it carries that UUID as its id,
    otherwise it is the answer of the [except] branch, with status 500 and the
    id ["error"]. *)
Theorem notification_is_answered (d : dict json) :
  dict_get d "id" = None ->
  handle_mcp_request RT self amb (Ok (JObj d))
  = handle_mcp_request RT self amb (Ok (JObj (("id", JStr (uuid4 amb)) :: d)))
  /\ exists r,
      handle_mcp_request RT self amb (Ok (JObj d)) = Ok r
      /\ body r <> None
      /\ (status_code r = 200%Z \/ status_code r = 500%Z)
      /\ (status_code r = 200%Z -> body_field r "id" = Some (JStr (uuid4 amb)))
      /\ (status_code r = 500%Z -> body_field r "id" = Some (JStr "error")).
Proof.
  intros Hid. split.
  - unfold handle_mcp_request, dispatch. cbn [bind get].
    unfold dict_get_or. cbn [dict_get].
    change (String.eqb "id" "method") with false.
    change (String.eqb "id" "params") with false.
    change (String.eqb "id" "id") with true.
    cbv iota. rewrite Hid. reflexivity.
  - assert (Hrid : request_id amb d = JStr (uuid4 amb))
      by (unfold request_id; now apply dict_get_or_none).
    destruct (handle_outcome d)
      as [r [Hr [[result ->] | [[message ->] | [description ->]]]]];
      eexists; (split; [exact Hr | ]); rewrite ?Hrid; cbn.
    + split; [discriminate | ]. split; [now left | ]. split; [reflexivity | discriminate].
    + split; [discriminate | ]. split; [now left | ]. split; [reflexivity | discriminate].
    + split; [discriminate | ]. split; [now right | ]. split; [discriminate | reflexivity].
Qed.

End Handler_facts.

(** ** The registry of the running server *)

Lemma append_assoc (a b c : string) : (a ++ b) ++ c = a ++ b ++ c.
Proof. induction a as [ | x a IH]; cbn; [reflexivity | now rewrite IH]. Qed.

Lemma append_empty_r (a : string) : a ++ "" = a.
Proof. induction a as [ | x a IH]; cbn; [reflexivity | now rewrite IH]. Qed.

Lemma occurs_in_join (sep k : string) (l : list string) :
  In k l -> occurs_in k (join sep l).
Proof.
  unfold join. induction l as [ | x l IH]; [intros [] | ].
  intros [Hx | Hin].
  - subst x. exists "". destruct l as [ | y l].
    + exists "". cbn. now rewrite append_empty_r.
    + exists (sep ++ String.concat sep (y :: l)). reflexivity.
  - destruct l as [ | y l]; [destruct Hin | ].
    destruct (IH Hin) as [before [after Heq]].
    exists (x ++ sep ++ before), after.
    change (String.concat sep (x :: y :: l))
      with (x ++ sep ++ String.concat sep (y :: l)).
    rewrite Heq, !append_assoc. reflexivity.
Qed.

Lemma registered_names_mcp_server :
  registered_names mcp_server
  = ["get_complete_kali_arsenal_info"; "get_kali_tool_category";
     "run_kali_security_scan"; "get_bleeding_edge_status";
     "generate_kali_security_report"].
Proof. reflexivity. Qed.

(** C3 as the handler has it, on the running server and for a registered
    tool name [n].  [tools/list] is answered, with status 200, by the
    descriptors of the registry in registration order (each the name followed
    by the registered details), of which exactly one has the name [n].
    [tools/call] with [params.name = n] runs the function of that name on
    [params.arguments] (the empty mapping when absent; with tracing on the
    arguments have a length) and is answered, with status 200, by
    [{content: [{type: "text", text}], isError: false}], where [text] is what
    the function returned, or the failure text when it raised.  Both hold
    provided the answer can be rendered; an answer that cannot be rendered is
    replaced by that of the [except] branch, with status 500. *)
Theorem registered_tools_listed_and_called (RT : Runtime) (amb : Ambient)
  (n : string) (d_list d_call params : dict json) (arguments : json) :
  In n (registered_names mcp_server) ->
  dict_get d_list "method" = Some (JStr "tools/list") ->
  dict_get d_call "method" = Some (JStr "tools/call") ->
  dict_get_or d_call "params" (JObj []) = JObj params ->
  dict_get params "name" = Some (JStr n) ->
  dict_get_or params "arguments" (JObj []) = arguments ->
  (tracing RT = true -> sized arguments = true) ->
  let listed := handle_mcp_request RT mcp_server amb (Ok (JObj d_list)) in
  let called := handle_mcp_request RT mcp_server amb (Ok (JObj d_call)) in
  let call_answer (returned : res string) :=
    JObj [("jsonrpc", JStr "2.0");
          ("id", request_id amb d_call);
          ("result",
           JObj [("content",
                  JArr [JObj [("type", JStr "text");
                              ("text",
                               JStr match returned with
                                    | Ok text => text
                                    | Raise e =>
                                        "Tool execution failed: " ++ str_exn e
                                    end)]]);
                 ("isError", JBool false)])] in
  let answered_with (returned : res string) :=
    (renderable (recursion_budget RT) (call_answer returned) = true ->
     called = Ok (answer_200 (call_answer returned)))
    /\ (renderable (recursion_budget RT) (call_answer returned) = false ->
        called = Ok (catch_all_answer (render_error_text RT (call_answer returned)))) in
  (let descriptors :=
     map (fun entry : string * dict json =>
            JObj (("name", JStr (fst entry)) :: snd entry))
       (tools mcp_server) in
   let list_answer :=
     JObj [("jsonrpc", JStr "2.0");
           ("id", request_id amb d_list);
           ("result", JObj [("tools", JArr descriptors)])] in
   map descriptor_name descriptors
   = map (fun m => Some (JStr m))
       ["get_complete_kali_arsenal_info"; "get_kali_tool_category";
        "run_kali_security_scan"; "get_bleeding_edge_status";
        "generate_kali_security_report"]
   /\ count_named n descriptors = 1%nat
   /\ (renderable (recursion_budget RT) list_answer = true ->
       listed = Ok (answer_200 list_answer))
   /\ (renderable (recursion_budget RT) list_answer = false ->
       listed = Ok (catch_all_answer (render_error_text RT list_answer))))
  /\ (n = "get_complete_kali_arsenal_info" ->
      answered_with (get_complete_kali_arsenal_info RT))
  /\ (n = "get_kali_tool_category" ->
      answered_with
        (category_name <- get arguments "category_name" (JStr "") ;;
         get_kali_tool_category category_name))
  /\ (n = "run_kali_security_scan" ->
      answered_with
        (target <- get arguments "target" (JStr "example.com") ;;
         scan_type <- get arguments "scan_type" (JStr "reconnaissance") ;;
         run_kali_security_scan RT (now amb) target scan_type))
  /\ (n = "get_bleeding_edge_status" ->
      answered_with (get_bleeding_edge_status RT))
  /\ (n = "generate_kali_security_report" ->
      answered_with
        (report_type <- get arguments "report_type" (JStr "comprehensive") ;;
         generate_kali_security_report RT (now amb) report_type))
  /\ (dict_get params "arguments" = None -> arguments = JObj []).
Proof.
  intros Hreg Hlist Hcall Hp Hn Ha Hsized listed called call_answer answered_with.
  assert (Hd : dispatch RT mcp_server amb (Ok (JObj d_call))
               = Ok (call_answer (tool_branches RT (now amb) (JStr n) arguments))).
  { rewrite (dispatch_tools_call RT mcp_server amb d_call params Hcall Hp).
    cbn zeta. rewrite (dict_get_or_some _ _ _ _ Hn), Ha.
    cbn [contains_key bind].
    apply mem_In in Hreg. unfold registered_names in Hreg. rewrite Hreg.
    rewrite (_execute_tool_sized RT _ _ _ Hsized). reflexivity. }
  assert (Hanswered : answered_with (tool_branches RT (now amb) (JStr n) arguments)).
  { split; intros Hr.
    - exact (handle_rendered _ _ _ _ _ Hd Hr).
    - exact (handle_unrenderable _ _ _ _ _ Hd Hr). }
  split; [ | split; [ | split; [ | split; [ | split; [ | split]]]]];
    try (intros ->; exact Hanswered).
  - cbv zeta. split; [reflexivity | ]. split; [ | ].
    + rewrite registered_names_mcp_server in Hreg. cbn [In] in Hreg.
      repeat (destruct Hreg as [<- | Hreg]; [reflexivity | ]).
      destruct Hreg.
    + assert (Hl : dispatch RT mcp_server amb (Ok (JObj d_list))
                   = Ok (JObj [("jsonrpc", JStr "2.0");
                               ("id", request_id amb d_list);
                               ("result",
                                JObj [("tools", JArr (tools_list mcp_server))])])).
      { unfold dispatch. cbn [bind get].
        rewrite (dict_get_or_some _ _ _ _ Hlist). reflexivity. }
      split; intros Hr.
      * exact (handle_rendered _ _ _ _ _ Hl Hr).
      * exact (handle_unrenderable _ _ _ _ _ Hl Hr).
  - intros Hnone. rewrite (dict_get_or_none _ _ _ Hnone) in Ha. now subst.
Qed.

(** ** The tool [get_kali_tool_category] on an invalid category *)

Lemma get_kali_tool_category_invalid (s : string) :
  s = "" \/ ~ In s (dict_keys get_kali_arsenal_data) ->
  get_kali_tool_category (JStr s) = Ok invalid_category_text.
Proof.
  intros H. unfold get_kali_tool_category. cbn [truthy contains_key].
  destruct (String.eqb s "") eqn:He; [reflexivity | ].
  destruct H as [-> | Hnot]; [discriminate | ].
  cbn [negb bind].
  destruct (mem s (dict_keys get_kali_arsenal_data)) eqn:Hmem.
  - apply mem_In in Hmem. contradiction.
  - reflexivity.
Qed.

Lemma get_kali_tool_category_no_key (v : json) :
  truthy v = false \/ hashable v = true ->
  (forall s, v = JStr s -> s = "" \/ ~ In s (dict_keys get_kali_arsenal_data)) ->
  get_kali_tool_category v = Ok invalid_category_text.
Proof.
  intros Hv Hkey. destruct v as [ | b | z | f | s | l | o].
  - reflexivity.
  - unfold get_kali_tool_category. cbn [truthy contains_key]. now destruct (negb b).
  - unfold get_kali_tool_category. cbn [truthy contains_key].
    now destruct (negb (negb (z =? 0)%Z)).
  - unfold get_kali_tool_category. cbn [truthy contains_key]. now destruct f.
  - apply get_kali_tool_category_invalid. now apply Hkey.
  - destruct Hv as [Hv | Hv]; [ | discriminate Hv].
    unfold get_kali_tool_category. now rewrite Hv.
  - destruct Hv as [Hv | Hv]; [ | discriminate Hv].
    unfold get_kali_tool_category. now rewrite Hv.
Qed.

(** C10 as the code has it: for a category name that is falsy (the empty
    string among others) or is a string, number or boolean that is no key of
    the arsenal table, [get_kali_tool_category] returns a text that begins with
    ["Invalid category."] and in which every category name of the table occurs;
    a [tools/call] request for it on the running server is answered, with
    status 200, by a result holding that text with [isError] false, provided
    the answer can be rendered (otherwise the [except] branch answers, with
    status 500). *)
Theorem invalid_category_reported (RT : Runtime) (amb : Ambient) (v : json) :
  truthy v = false \/ hashable v = true ->
  (forall s, v = JStr s -> s = "" \/ ~ In s (dict_keys get_kali_arsenal_data)) ->
  get_kali_tool_category v = Ok invalid_category_text
  /\ String.prefix "Invalid category." invalid_category_text = true
  /\ (forall k, In k (dict_keys get_kali_arsenal_data) ->
                occurs_in k invalid_category_text)
  /\ (forall d params arguments : dict json,
        dict_get d "method" = Some (JStr "tools/call") ->
        dict_get_or d "params" (JObj []) = JObj params ->
        dict_get params "name" = Some (JStr "get_kali_tool_category") ->
        dict_get_or params "arguments" (JObj []) = JObj arguments ->
        dict_get_or arguments "category_name" (JStr "") = v ->
        let answer :=
          JObj [("jsonrpc", JStr "2.0");
                ("id", request_id amb d);
                ("result",
                 JObj [("content",
                        JArr [JObj [("type", JStr "text");
                                    ("text", JStr invalid_category_text)]]);
                       ("isError", JBool false)])] in
        let r := handle_mcp_request RT mcp_server amb (Ok (JObj d)) in
        (renderable (recursion_budget RT) answer = true ->
         r = Ok (answer_200 answer))
        /\ (renderable (recursion_budget RT) answer = false ->
            r = Ok (catch_all_answer (render_error_text RT answer)))).
Proof.
  intros Hv Hkey. split; [ | split; [ | split]].
  - now apply get_kali_tool_category_no_key.
  - reflexivity.
  - intros k Hk. unfold invalid_category_text.
    destruct (occurs_in_join ", " k _ Hk) as [before [after Heq]].
    exists ("Invalid category. Available categories: " ++ before), after.
    rewrite Heq, append_assoc. reflexivity.
  - intros d params arguments Hm Hp Hn Ha Hc answer r.
    assert (Hd : dispatch RT mcp_server amb (Ok (JObj d)) = Ok answer).
    { rewrite (dispatch_tools_call RT mcp_server amb d params Hm Hp).
      cbn zeta. rewrite (dict_get_or_some _ _ _ _ Hn), Ha.
      change (contains_key (JStr "get_kali_tool_category") (tools mcp_server))
        with (@Ok bool true).
      cbn [bind]. rewrite _execute_tool_mapping.
      change (tool_branches RT (now amb) (JStr "get_kali_tool_category")
                (JObj arguments))
        with (category_name <- get (JObj arguments) "category_name" (JStr "") ;;
              get_kali_tool_category category_name).
      cbn [get bind]. rewrite Hc, (get_kali_tool_category_no_key v Hv Hkey).
      reflexivity. }
    split; intros Hr.
    + exact (handle_rendered _ _ _ _ _ Hd Hr).
    + exact (handle_unrenderable _ _ _ _ _ Hd Hr).
Qed.

(** ** The health endpoint over the life of the process *)

Lemma serve_all_unchanged (RT : Runtime) (self : server_state) (cs : list call) :
  serve_all RT self cs = self.
Proof.
  revert self. induction cs as [ | c cs IH]; intros self; [reflexivity | ].
  cbn [serve_all]. destruct c; cbn [serve fst]; apply IH.
Qed.

(** C8 as the endpoint has it: at every query [mcp_tools] is the number of
    tools in the registry at that time; [total_tools] is computed from the
    arsenal table and is the same whatever the registry holds; and between
    any two queries of one process neither value decreases. *)
Theorem health_counts_over_lifetime (RT : Runtime) (self : server_state)
  (earlier later : list call) (now1 now2 : string) :
  let s1 := serve_all RT self earlier in
  let s2 := serve_all RT s1 later in
  let h1 := health_check s1 now1 in
  let h2 := health_check s2 now2 in
  dict_get h2 "mcp_tools" = Some (JNum (Z.of_nat (List.length (tools s2))))
  /\ (forall other now,
        dict_get (health_check other now) "total_tools" = dict_get h2 "total_tools")
  /\ (exists t1 t2,
        dict_get h1 "total_tools" = Some (JNum t1)
        /\ dict_get h2 "total_tools" = Some (JNum t2)
        /\ (t1 <= t2)%Z)
  /\ (exists m1 m2,
        dict_get h1 "mcp_tools" = Some (JNum m1)
        /\ dict_get h2 "mcp_tools" = Some (JNum m2)
        /\ (m1 <= m2)%Z).
Proof.
  intros s1 s2 h1 h2. subst h1 h2 s2 s1. rewrite !serve_all_unchanged.
  split; [reflexivity | ]. split; [reflexivity | ]. split.
  - eexists. eexists. split; [reflexivity | ]. split; [reflexivity | ]. apply Z.le_refl.
  - eexists. eexists. split; [reflexivity | ]. split; [reflexivity | ]. apply Z.le_refl.
Qed.

(** On the running server [total_tools] is not the number of registered
    tools. *)
Lemma health_total_tools_not_registry_count :
  let h := health_check mcp_server "2025-01-01T00:00:00" in
  List.length (tools mcp_server) = 5%nat
  /\ dict_get h "total_tools" = Some (JNum 861)
  /\ dict_get h "total_tools"
     <> Some (JNum (Z.of_nat (List.length (tools mcp_server)))).
Proof.
  split; [reflexivity | ]. split; [reflexivity | ]. discriminate.
Qed.

(** ** The SSE session *)

Lemma event_stream_finished (self : server_state) (ws : list wake) :
  event_stream_from self Finished ws = [].
Proof. induction ws as [ | w ws IH]; [reflexivity | exact IH]. Qed.

(** Once the generator is past its first [yield] it emits heartbeats only. *)
Lemma event_stream_started (self : server_state) (ws : list wake) (p : gen_point) :
  p <> Created -> Forall is_heartbeat (event_stream_from self p ws).
Proof.
  revert p. induction ws as [ | w ws IH]; intros p Hp; [constructor | ].
  cbn [event_stream_from].
  destruct p, w; try contradiction; cbn [event_stream_step app];
    repeat constructor; apply IH; discriminate.
Qed.

Lemma event_stream_shape (self : server_state) (ws : list wake) :
  event_stream self ws = []
  \/ exists rest,
      event_stream self ws = initialize_event self :: rest
      /\ Forall is_heartbeat rest.
Proof.
  unfold event_stream. destruct ws as [ | [now | ] ws].
  - now left.
  - right. exists (event_stream_from self AtYieldInitialize ws).
    split; [reflexivity | ]. apply event_stream_started. discriminate.
  - left. apply event_stream_finished.
Qed.

(** C9: the chunks of a session are none at all (the connection was dropped
    before the generator ran), or the [initialize] event, carrying protocol
    version, capabilities and server identity, followed by heartbeats only; so
    every heartbeat comes at a later position than the [initialize] event, and
    a session that is resumed at least once before it is dropped emits the
    [initialize] event first. *)
Theorem initialize_precedes_heartbeats (self : server_state) (ws : list wake) :
  initialize_event self
  = Data (JObj [("jsonrpc", JStr "2.0");
                ("method", JStr "initialize");
                ("params",
                 JObj [("protocolVersion", JStr MCP_VERSION);
                       ("capabilities", capabilities self);
                       ("serverInfo", SERVER_INFO)])])
  /\ (event_stream self ws = []
      \/ exists rest,
          event_stream self ws = initialize_event self :: rest
          /\ Forall is_heartbeat rest)
  /\ (forall i c,
        nth_error (event_stream self ws) i = Some c ->
        is_heartbeat c ->
        (0 < i)%nat
        /\ nth_error (event_stream self ws) 0 = Some (initialize_event self))
  /\ (forall now ws',
        exists rest,
          event_stream self (Resume now :: ws') = initialize_event self :: rest
          /\ Forall is_heartbeat rest).
Proof.
  split; [reflexivity | ]. split; [apply event_stream_shape | ]. split.
  - intros i c Hnth Hhb.
    destruct (event_stream_shape self ws) as [Hnil | [rest [Hcons _]]].
    + rewrite Hnil in Hnth. destruct i; discriminate.
    + rewrite Hcons in *. destruct i as [ | i].
      * cbn in Hnth. inversion Hnth; subst c. discriminate.
      * split; [lia | reflexivity].
  - intros now ws'. exists (event_stream_from self AtYieldInitialize ws').
    split; [reflexivity | ]. apply event_stream_started. discriminate.
Qed.

(** ** The theorems at sample requests *)

Lemma not_in_registered_names (n : string) :
  mem n (registered_names mcp_server) = false ->
  ~ In n (registered_names mcp_server).
Proof. intros H Hin. apply mem_In in Hin. congruence. Defined.

Lemma tools_call_unregistered_not_found_sample :
  handle_mcp_request (Sample.rt true) mcp_server Sample.amb
    (Ok (JObj Sample.call_nonexistent))
  = Ok (answer_200
          (JObj [("jsonrpc", JStr "2.0");
                 ("id", JStr "abc");
                 ("error",
                  JObj [("code", JNum (-32601));
                        ("message", JStr "Tool not found: nonexistent_tool")])])).
Proof.
  apply (proj1 (tools_call_unregistered_not_found (Sample.rt true) mcp_server
                  Sample.amb Sample.call_nonexistent
                  (Sample.call_params "nonexistent_tool" [])
                  (JStr "nonexistent_tool") eq_refl eq_refl eq_refl
                  (fun name H =>
                     match H in (_ = v) return
                           (match v with
                            | JStr n => ~ In n (registered_names mcp_server)
                            | _ => True
                            end)
                     with
                     | eq_refl => not_in_registered_names "nonexistent_tool" eq_refl
                     end))).
  - reflexivity.
  - reflexivity.
Defined.

(** C1 fails on a name that is a list: the membership test raises and the
    answer is the RPC error [-32603] with status 500. *)
Lemma list_name_is_internal_error :
  dict_get More_samples.call_list_name "method" = Some (JStr "tools/call")
  /\ dict_get More_samples.call_list_name "params"
     = Some (JObj [("name", JArr [])])
  /\ handle_mcp_request (Sample.rt false) mcp_server Sample.amb
       (Ok (JObj More_samples.call_list_name))
     = Ok (catch_all_answer "unhashable type: 'list'")
  /\ error_field (catch_all_answer "unhashable type: 'list'") "code"
     <> Some (JNum (-32601)).
Proof. repeat split. discriminate. Qed.

Lemma tool_handler_exception_is_success_sample :
  handle_mcp_request (Sample.rt true) mcp_server Sample.amb
    (Ok (JObj Sample.call_scan_bad))
  = Ok (answer_200
          (JObj [("jsonrpc", JStr "2.0");
                 ("id", JNum 7);
                 ("result",
                  JObj [("content",
                         JArr [JObj [("type", JStr "text");
                                     ("text",
                                      JStr "Tool execution failed: 'int' object has no attribute 'upper'")]]);
                        ("isError", JBool false)])])).
Proof.
  apply (proj1 (tool_handler_exception_is_success (Sample.rt true) mcp_server
                  Sample.amb Sample.call_scan_bad
                  (Sample.call_params "run_kali_security_scan"
                     Sample.scan_arguments_bad)
                  "run_kali_security_scan" (JObj Sample.scan_arguments_bad)
                  (AttributeError "int" "upper")
                  eq_refl eq_refl eq_refl eq_refl
                  (proj1 (mem_In "run_kali_security_scan"
                            (registered_names mcp_server)) eq_refl)
                  (fun _ => eq_refl) eq_refl)).
  reflexivity.
Defined.

(** C2 fails when the answer cannot be rendered: the same failing scan
    under the id ["\ud800"] is answered by an RPC-level error. *)
Lemma failing_tool_under_unrenderable_id :
  exists r description,
    handle_mcp_request (Sample.rt true) mcp_server Sample.amb
      (Ok (JObj More_samples.call_scan_bad_surrogate_id))
    = Ok r
    /\ dict_get More_samples.call_scan_bad_surrogate_id "id"
       = Some (JStr Sample.lone_surrogate)
    /\ tool_branches (Sample.rt true) (now Sample.amb)
         (JStr "run_kali_security_scan") (JObj Sample.scan_arguments_bad)
       = Raise (AttributeError "int" "upper")
    /\ r = catch_all_answer description
    /\ status_code r = 500%Z
    /\ body_field r "result" = None
    /\ error_field r "code" = Some (JNum (-32603)).
Proof. eexists. eexists. repeat split. Qed.

Lemma registered_tools_listed_and_called_sample :
  (exists descriptors,
      count_named "run_kali_security_scan" descriptors = 1%nat
      /\ List.length descriptors = 5%nat
      /\ handle_mcp_request (Sample.rt true) mcp_server Sample.amb
           (Ok (JObj Sample.list_tools))
         = Ok (answer_200
                 (JObj [("jsonrpc", JStr "2.0");
                        ("id", JStr "abc");
                        ("result", JObj [("tools", JArr descriptors)])])))
  /\ handle_mcp_request (Sample.rt true) mcp_server Sample.amb
       (Ok (JObj Sample.call_scan))
     = Ok (answer_200
             (JObj [("jsonrpc", JStr "2.0");
                    ("id", JNum 2);
                    ("result",
                     JObj [("content",
                            JArr [JObj [("type", JStr "text");
                                        ("text",
                                         JStr "SCAN example.org RECONNAISSANCE 2025-01-01T00:00:00")]]);
                           ("isError", JBool false)])])).
Proof.
  destruct (registered_tools_listed_and_called (Sample.rt true) Sample.amb
              "run_kali_security_scan" Sample.list_tools Sample.call_scan
              (Sample.call_params "run_kali_security_scan"
                 [("target", JStr "example.org")])
              (JObj [("target", JStr "example.org")])
              (proj1 (mem_In "run_kali_security_scan"
                        (registered_names mcp_server)) eq_refl)
              eq_refl eq_refl eq_refl eq_refl eq_refl
              (fun _ => eq_refl))
    as [[_ [Hone [Hlisted _]]] [_ [_ [Hscan _]]]].
  split.
  - eexists. split; [exact Hone | ]. split; [reflexivity | ].
    exact (Hlisted eq_refl).
  - exact (proj1 (Hscan eq_refl) eq_refl).
Defined.

(** C3 fails when the answer cannot be rendered: [tools/list] under the id
    ["\ud800"] returns no tool list. *)
Lemma tools_list_under_unrenderable_id :
  exists r description,
    handle_mcp_request (Sample.rt true) mcp_server Sample.amb
      (Ok (JObj More_samples.list_tools_surrogate_id))
    = Ok r
    /\ dict_get More_samples.list_tools_surrogate_id "method"
       = Some (JStr "tools/list")
    /\ r = catch_all_answer description
    /\ status_code r = 500%Z
    /\ body_field r "result" = None.
Proof. eexists. eexists. repeat split. Qed.

Lemma unreadable_body_internal_error_sample :
  handle_mcp_request (Sample.rt false) mcp_server Sample.amb
    (Raise (JSONDecodeError "Expecting value: line 1 column 1 (char 0)"))
  = Ok (catch_all_answer "Expecting value: line 1 column 1 (char 0)")
  /\ handle_mcp_request (Sample.rt false) mcp_server Sample.amb
       (Ok (JObj Sample.no_method))
     = Ok (answer_200
             (JObj [("jsonrpc", JStr "2.0");
                    ("id", JNum 1);
                    ("error",
                     JObj [("code", JNum (-32601));
                           ("message", JStr "Method not found: ")])])).
Proof.
  destruct (unreadable_body_internal_error (Sample.rt false) mcp_server Sample.amb
              (Raise (JSONDecodeError "Expecting value: line 1 column 1 (char 0)"))
              Sample.no_method eq_refl eq_refl)
    as [Hbad [Hobject _]].
  split; [exact (Hbad eq_refl) | exact (Hobject eq_refl)].
Defined.

(** C4 fails on an object without [method]: status 200 and code [-32601]. *)
Lemma missing_method_is_method_not_found :
  exists r,
    handle_mcp_request (Sample.rt false) mcp_server Sample.amb
      (Ok (JObj Sample.no_method)) = Ok r
    /\ dict_get Sample.no_method "method" = None
    /\ status_code r = 200%Z
    /\ error_field r "code" = Some (JNum (-32601))
    /\ ~ (status_code r = 500%Z /\ error_field r "code" = Some (JNum (-32603))).
Proof.
  eexists. split; [reflexivity | ]. split; [reflexivity | ].
  split; [reflexivity | ]. split; [reflexivity | ].
  intros [H _]. discriminate H.
Qed.

Lemma notification_is_answered_sample :
  handle_mcp_request (Sample.rt false) mcp_server Sample.amb
    (Ok (JObj Sample.list_tools_notification))
  = handle_mcp_request (Sample.rt false) mcp_server Sample.amb
      (Ok (JObj (("id", JStr (uuid4 Sample.amb)) :: Sample.list_tools_notification)))
  /\ exists r,
      handle_mcp_request (Sample.rt false) mcp_server Sample.amb
        (Ok (JObj Sample.list_tools_notification)) = Ok r
      /\ body r <> None
      /\ (status_code r = 200%Z \/ status_code r = 500%Z)
      /\ (status_code r = 200%Z ->
          body_field r "id" = Some (JStr (uuid4 Sample.amb)))
      /\ (status_code r = 500%Z -> body_field r "id" = Some (JStr "error")).
Proof.
  exact (notification_is_answered (Sample.rt false) mcp_server Sample.amb
           Sample.list_tools_notification eq_refl).
Defined.

(** C5 fails on a [tools/list] notification: a response body is returned. *)
Lemma notification_gets_a_body :
  exists r,
    handle_mcp_request (Sample.rt false) mcp_server Sample.amb
      (Ok (JObj Sample.list_tools_notification)) = Ok r
    /\ dict_get Sample.list_tools_notification "id" = None
    /\ structurally_valid (JObj Sample.list_tools_notification) = true
    /\ body r <> None
    /\ status_code r = 200%Z
    /\ body_field r "id" = Some (JStr "1b4e28ba-2fa1-41d2-883f-0016d3cca427").
Proof.
  eexists. split; [reflexivity | ]. split; [reflexivity | ]. split; [reflexivity | ].
  split; [discriminate | ]. split; reflexivity.
Qed.

Lemma unknown_method_not_found_sample :
  handle_mcp_request (Sample.rt true) mcp_server Sample.amb
    (Ok (JObj Sample.foo_bar))
  = Ok (answer_200
          (JObj [("jsonrpc", JStr "2.0");
                 ("id", JStr "abc");
                 ("error",
                  JObj [("code", JNum (-32601));
                        ("message", JStr "Method not found: foo/bar")])])).
Proof.
  apply (proj1 (unknown_method_not_found (Sample.rt true) mcp_server Sample.amb
                  Sample.foo_bar "foo/bar" eq_refl
                  ltac:(discriminate) ltac:(discriminate) ltac:(discriminate))).
  reflexivity.
Defined.

(** C6 fails on a method that cannot be rendered: the method ["\ud800"] is
    answered by the RPC error [-32603] with status 500. *)
Lemma unrenderable_method_is_internal_error :
  exists r description,
    handle_mcp_request (Sample.rt true) mcp_server Sample.amb
      (Ok (JObj More_samples.surrogate_method))
    = Ok r
    /\ structurally_valid (JObj More_samples.surrogate_method) = true
    /\ dict_get More_samples.surrogate_method "method"
       = Some (JStr Sample.lone_surrogate)
    /\ r = catch_all_answer description
    /\ status_code r = 500%Z
    /\ error_field r "code" = Some (JNum (-32603))
    /\ error_field r "code" <> Some (JNum (-32601)).
Proof. eexists. eexists. repeat split. discriminate. Qed.



Lemma not_a_category (s : string) :
  mem s (dict_keys get_kali_arsenal_data) = false ->
  s = "" \/ ~ In s (dict_keys get_kali_arsenal_data).
Proof. intros H. right. intros Hin. apply mem_In in Hin. congruence. Defined.

Lemma invalid_category_reported_sample :
  get_kali_tool_category (JStr "Malware") = Ok invalid_category_text
  /\ handle_mcp_request (Sample.rt true) mcp_server Sample.amb
       (Ok (JObj (Sample.call_category "Malware")))
     = Ok (answer_200
             (JObj [("jsonrpc", JStr "2.0");
                    ("id", JNum 1);
                    ("result",
                     JObj [("content",
                            JArr [JObj [("type", JStr "text");
                                        ("text", JStr invalid_category_text)]]);
                           ("isError", JBool false)])])).
Proof.
  destruct (invalid_category_reported (Sample.rt true) Sample.amb (JStr "Malware")
              (or_intror eq_refl)
              (fun s H =>
                 match H in (_ = v) return
                       (match v with
                        | JStr k => k = "" \/ ~ In k (dict_keys get_kali_arsenal_data)
                        | _ => True
                        end)
                 with
                 | eq_refl => not_a_category "Malware" eq_refl
                 end))
    as [Htool [_ [_ Hcall]]].
  split; [exact Htool | ].
  apply (Hcall (Sample.call_category "Malware")
           (Sample.call_params "get_kali_tool_category"
              [("category_name", JStr "Malware")])
           [("category_name", JStr "Malware")]); reflexivity.
Defined.

(** C10 fails on a category name that is a non-empty list: it is no key of
    the table, and the function raises; through [tools/call] the text
    delivered is the executor's failure text. *)
Lemma list_category_raises :
  (forall k, In k (dict_keys get_kali_arsenal_data) ->
             JStr k <> JArr [JStr "Forensics"])
  /\ get_kali_tool_category (JArr [JStr "Forensics"])
     = Raise (TypeError_unhashable "list")
  /\ handle_mcp_request (Sample.rt true) mcp_server Sample.amb
       (Ok (JObj More_samples.call_category_list))
     = Ok (answer_200
             (JObj [("jsonrpc", JStr "2.0");
                    ("id", JNum 1);
                    ("result",
                     JObj [("content",
                            JArr [JObj [("type", JStr "text");
                                        ("text",
                                         JStr "Tool execution failed: unhashable type: 'list'")]]);
                           ("isError", JBool false)])]))
  /\ String.prefix "Invalid category."
       "Tool execution failed: unhashable type: 'list'" = false.
Proof. repeat split. intros k _. discriminate. Qed.

(** ** The shape of every answer *)

Section Answer_facts.

Variable RT : Runtime.
Variable self : server_state.
Variable amb : Ambient.

Lemma str_eq_true (v : json) (s : string) : str_eq v s = true <-> v = JStr s.
Proof.
  destruct v; cbn; try (split; [discriminate | intros H; discriminate H]).
  rewrite String.eqb_eq. split; [now intros -> | now intros [= ->]].
Qed.

Lemma method_is (d : dict json) (m : string) :
  m <> "" ->
  str_eq (dict_get_or d "method" (JStr "")) m = true
  <-> dict_get d "method" = Some (JStr m).
Proof.
  intros Hm. rewrite str_eq_true. unfold dict_get_or.
  destruct (dict_get d "method") as [v | ].
  - split; [now intros -> | now intros [= ->]].
  - split; [intros [= H]; now subst m | discriminate].
Qed.

(** What the handler can end in, whatever is posted: it answers whenever
    the text of a decoding error can be encoded. *)
Lemma handle_shape (request : res json) :
  (forall e, request = Raise e -> encodable (str_exn e) = true) ->
  exists answered,
    handle_mcp_request RT self amb request = Ok answered
    /\ ((exists id result,
            answered = answer_200 (JObj [("jsonrpc", JStr "2.0");
                                         ("id", id);
                                         ("result", result)]))
        \/ (exists id message,
               answered
               = answer_200 (JObj [("jsonrpc", JStr "2.0");
                                   ("id", id);
                                   ("error",
                                    JObj [("code", JNum (-32601));
                                          ("message", JStr message)])]))
        \/ (exists description, answered = catch_all_answer description)).
Proof.
  intros Henc. destruct request as [v | e].
  - destruct (dispatch_outcome RT self amb v)
      as [[e [Hd He]] | [[d [result [Hv Hd]]] | [d [message [Hv Hd]]]]].
    + eexists.
      split; [exact (handle_raised RT self amb _ _ Hd (ascii_only_encodable _ He)) | ].
      right. right. eexists. reflexivity.
    + match type of Hd with _ = Ok ?response =>
        destruct (renderable (recursion_budget RT) response) eqn:Hr;
        eexists; (split; [first [exact (handle_rendered RT self amb _ _ Hd Hr)
                                | exact (handle_unrenderable RT self amb _ _ Hd Hr)] | ])
      end.
      * left. eexists. eexists. reflexivity.
      * right. right. eexists. reflexivity.
    + match type of Hd with _ = Ok ?response =>
        destruct (renderable (recursion_budget RT) response) eqn:Hr;
        eexists; (split; [first [exact (handle_rendered RT self amb _ _ Hd Hr)
                                | exact (handle_unrenderable RT self amb _ _ Hd Hr)] | ])
      end.
      * right. left. eexists. eexists. reflexivity.
      * right. right. eexists. reflexivity.
  - eexists.
    split; [exact (handle_raised RT self amb (Raise e) e eq_refl (Henc e eq_refl)) | ].
    right. right. eexists. reflexivity.
Qed.

(** X1: whatever is posted (the text of a decoding error being one that can
    be encoded), the handler answers, and the answer is a JSON-RPC 2.0 object
    with an [id] and exactly one of [result] and [error]; the status is 200 or
    500; the only error codes are [-32601] and [-32603]; the status is 500
    exactly when the code is [-32603]; and an answer of status 500 carries the
    id ["error"]. *)
Theorem every_answer_is_an_envelope (request : res json) :
  (forall e, request = Raise e -> encodable (str_exn e) = true) ->
  exists r,
    handle_mcp_request RT self amb request = Ok r
    /\ body_field r "jsonrpc" = Some (JStr "2.0")
    /\ body_field r "id" <> None
    /\ ((body_field r "result" <> None /\ body_field r "error" = None)
        \/ (body_field r "result" = None /\ body_field r "error" <> None))
    /\ (status_code r = 200%Z \/ status_code r = 500%Z)
    /\ (body_field r "error" <> None ->
        error_field r "code" = Some (JNum (-32601))
        \/ error_field r "code" = Some (JNum (-32603)))
    /\ (status_code r = 500%Z <-> error_field r "code" = Some (JNum (-32603)))
    /\ (status_code r = 500%Z -> body_field r "id" = Some (JStr "error")).
Proof.
  intros Henc.
  destruct (handle_shape request Henc)
    as [r [Hr [[id [result ->]] | [[id [message ->]] | [description ->]]]]];
    eexists; (split; [exact Hr | ]).
  - repeat split; try discriminate.
    + left. split; [discriminate | reflexivity].
    + now left.
    + intros Hx. now contradiction Hx.
  - repeat split; try discriminate.
    + right. split; [reflexivity | discriminate].
    + now left.
    + intros _. now left.
  - repeat split; try discriminate; try (intros _; reflexivity).
    + right. split; [reflexivity | discriminate].
    + now right.
    + intros _. now right.
Qed.

End Answer_facts.

(** ** When the catch-all answers *)

Section Catch_all_facts.

Variable RT : Runtime.
Variable self : server_state.
Variable amb : Ambient.

Lemma contains_key_raises {V : Type} (k : json) (d : dict V) :
  (exists e, contains_key k d = Raise e) <-> hashable k = false.
Proof.
  destruct k; cbn; split; try discriminate; try reflexivity;
    try (intros [e H]; discriminate H); intros _; eexists; reflexivity.
Qed.

Lemma contains_key_true {V : Type} (k : json) (d : dict V) :
  contains_key k d = Ok true <-> exists n, k = JStr n /\ In n (dict_keys d).
Proof.
  destruct k; cbn; try (split; [discriminate | intros [n [H _]]; discriminate H]).
  split.
  - intros [= H]. exists s. split; [reflexivity | now apply mem_In].
  - intros [n [[= ->] Hin]]. apply mem_In in Hin. now rewrite Hin.
Qed.

Lemma _execute_tool_raises (now : string) (tool_name arguments : json) :
  (exists e, _execute_tool RT now tool_name arguments = Raise e)
  <-> tracing RT = true /\ sized arguments = false.
Proof.
  unfold _execute_tool, sized. rewrite _execute_tool_impl_returns.
  destruct (tracing RT); cbn.
  - destruct (len arguments) as [n | e]; cbn.
    + split; [intros [e H]; discriminate H | intros [_ H]; discriminate H].
    + split; [now intros _ | intros _; eexists; reflexivity].
  - split; [intros [e H]; discriminate H | intros [H _]; discriminate H].
Qed.

(** [dispatch] on a [tools/call] request, whatever its parameters are. *)
Lemma dispatch_tools_call_any (d : dict json) :
  dict_get d "method" = Some (JStr "tools/call") ->
  dispatch RT self amb (Ok (JObj d))
  = (let params := dict_get_or d "params" (JObj []) in
     tool_name <- get params "name" (JStr "") ;;
     arguments <- get params "arguments" (JObj []) ;;
     registered <- contains_key tool_name (tools self) ;;
     if (registered : bool) then
       result <- _execute_tool RT (now amb) tool_name arguments ;;
       Ok (result_response (request_id amb d) (text_result result))
     else
       Ok (error_response (request_id amb d) (-32601)
             ("Tool not found: " ++ format RT tool_name))).
Proof.
  intros Hm. unfold dispatch. cbn [bind get].
  rewrite (dict_get_or_some _ _ _ _ Hm). reflexivity.
Qed.

(** When the [try] block raises before its [return]. *)
Lemma dispatch_raises_exactly_when (request : res json) :
  (exists e, dispatch RT self amb request = Raise e)
  <-> (unreadable request = true
       \/ exists d,
           request = Ok (JObj d)
           /\ dict_get d "method" = Some (JStr "tools/call")
           /\ (is_mapping (dict_get_or d "params" (JObj [])) = false
               \/ exists params,
                   dict_get_or d "params" (JObj []) = JObj params
                   /\ (hashable (dict_get_or params "name" (JStr "")) = false
                       \/ exists name,
                           dict_get_or params "name" (JStr "") = JStr name
                           /\ In name (registered_names self)
                           /\ tracing RT = true
                           /\ sized (dict_get_or params "arguments" (JObj []))
                              = false))).
Proof.
  destruct request as [v | e].
  2:{ split; [intros _; now left | intros _; eexists; reflexivity]. }
  destruct v as [ | b | z | f | s | l | d];
    try (split; [intros _; now left | intros _; eexists; reflexivity]).
  destruct (str_eq (dict_get_or d "method" (JStr "")) "tools/call") eqn:Hcall.
  - apply method_is in Hcall; [ | discriminate].
    rewrite (dispatch_tools_call_any d Hcall). cbn zeta.
    destruct (dict_get_or d "params" (JObj [])) as [ | b | z | f | s | l | params] eqn:Hp;
      try (split; [intros _; right; exists d; repeat split; try assumption;
                               left; rewrite Hp; reflexivity
                  | intros _; eexists; reflexivity]).
    cbn [get bind].
    split.
    + intros [e He]. right. exists d. repeat split; try assumption.
      right. exists params. split; [assumption | ].
      destruct (contains_key (dict_get_or params "name" (JStr "")) (tools self))
        as [[ | ] | e'] eqn:Hk; cbn [bind] in He.
      * right. apply contains_key_true in Hk. destruct Hk as [name [Hn Hin]].
        exists name. split; [assumption | ]. split; [assumption | ].
        apply (_execute_tool_raises (now amb) (dict_get_or params "name" (JStr ""))).
        destruct (_execute_tool RT (now amb) (dict_get_or params "name" (JStr ""))
                    (dict_get_or params "arguments" (JObj []))) as [t | e''];
          [discriminate He | now exists e''].
      * discriminate He.
      * left. apply (contains_key_raises _ (tools self)). now exists e'.
    + intros [Hun | [d' [Hd [_ Hcases]]]]; [discriminate Hun | ].
      injection Hd as <-. rewrite Hp in Hcases.
      destruct Hcases as [Hmap | [params' [Hpar Hcases]]]; [discriminate Hmap | ].
      injection Hpar as <-.
      destruct Hcases as [Hh | [name [Hn [Hin [Ht Hs]]]]].
      * apply (contains_key_raises _ (tools self)) in Hh. destruct Hh as [e He].
        rewrite He. eexists. reflexivity.
      * assert (Hk : contains_key (dict_get_or params "name" (JStr "")) (tools self)
                     = Ok true)
          by (apply contains_key_true; exists name; split; assumption).
        rewrite Hk. cbn [bind].
        destruct (proj2 (_execute_tool_raises (now amb)
                           (dict_get_or params "name" (JStr ""))
                           (dict_get_or params "arguments" (JObj [])))
                    (conj Ht Hs)) as [e He].
        rewrite He. eexists. reflexivity.
  - split.
    + intros [e He]. exfalso. revert He. unfold dispatch. cbn [bind get].
      rewrite Hcall.
      destruct (str_eq (dict_get_or d "method" (JStr "")) "tools/list");
        [discriminate | ].
      destruct (str_eq (dict_get_or d "method" (JStr "")) "initialize");
        discriminate.
    + intros [Hun | [d' [Hd [Hm _]]]]; [discriminate Hun | ].
      injection Hd as <-. apply method_is in Hm; [ | discriminate]. congruence.
Qed.

(** The status of the answer, given how the [try] block ended. *)
Lemma handle_status (request : res json) :
  (forall e, request = Raise e -> encodable (str_exn e) = true) ->
  exists r,
    handle_mcp_request RT self amb request = Ok r
    /\ (status_code r = 200%Z \/ status_code r = 500%Z)
    /\ (status_code r = 500%Z
        <-> ((exists e, dispatch RT self amb request = Raise e)
             \/ exists response,
                 dispatch RT self amb request = Ok response
                 /\ renderable (recursion_budget RT) response = false)).
Proof.
  intros Henc.
  destruct (dispatch RT self amb request) as [response | e] eqn:Hd.
  - destruct (renderable (recursion_budget RT) response) eqn:Hr.
    + eexists. split; [exact (handle_rendered RT self amb _ _ Hd Hr) | ].
      split; [now left | ]. split; [discriminate | ].
      intros [[e He] | [response' [[= <-] Hr']]]; [discriminate He | congruence].
    + eexists. split; [exact (handle_unrenderable RT self amb _ _ Hd Hr) | ].
      split; [now right | ]. split; [ | reflexivity].
      intros _. right. now exists response.
  - assert (He : encodable (str_exn e) = true).
    { destruct request as [v | e'].
      - destruct (dispatch_outcome RT self amb v)
          as [[e' [Hd' He']] | [[d [result [_ Hd']]] | [d [message [_ Hd']]]]];
          rewrite Hd' in Hd; try discriminate Hd.
        injection Hd as <-. now apply ascii_only_encodable.
      - injection Hd as <-. now apply Henc. }
    eexists. split; [exact (handle_raised RT self amb _ _ Hd He) | ].
    split; [now right | ]. split; [ | reflexivity].
    intros _. left. now exists e.
Qed.

(** X2: the handler answers (the text of a decoding error being one that
    can be encoded) with status 200 or 500, and with status 500 exactly when
    the body is unreadable, or the request is a [tools/call] whose parameters
    are not a mapping, or whose tool name is a list or a mapping, or which
    names a registered tool while tracing is on and the arguments have no
    length, or the answer that the [try] block built cannot be rendered. *)
Theorem status_500_exactly_when (request : res json) :
  (forall e, request = Raise e -> encodable (str_exn e) = true) ->
  exists r,
    handle_mcp_request RT self amb request = Ok r
    /\ (status_code r = 200%Z \/ status_code r = 500%Z)
    /\ (status_code r = 500%Z
        <-> ((unreadable request = true
              \/ exists d,
                  request = Ok (JObj d)
                  /\ dict_get d "method" = Some (JStr "tools/call")
                  /\ (is_mapping (dict_get_or d "params" (JObj [])) = false
                      \/ exists params,
                          dict_get_or d "params" (JObj []) = JObj params
                          /\ (hashable (dict_get_or params "name" (JStr "")) = false
                              \/ exists name,
                                  dict_get_or params "name" (JStr "") = JStr name
                                  /\ In name (registered_names self)
                                  /\ tracing RT = true
                                  /\ sized (dict_get_or params "arguments" (JObj []))
                                     = false)))
             \/ exists response,
                 dispatch RT self amb request = Ok response
                 /\ renderable (recursion_budget RT) response = false)).
Proof.
  intros Henc. destruct (handle_status request Henc) as [r [Hr [Hs H500]]].
  exists r. split; [exact Hr | ]. split; [exact Hs | ].
  rewrite H500, dispatch_raises_exactly_when. reflexivity.
Qed.

End Catch_all_facts.

(** ** Dictionaries: lookup after assignment and after merging *)

Lemma dict_get_set_same {V : Type} (d : dict V) (k : string) (v : V) :
  dict_get (dict_set d k v) k = Some v.
Proof.
  induction d as [ | [k' v'] d IH]; cbn.
  - now rewrite String.eqb_refl.
  - destruct (String.eqb k' k) eqn:He; cbn.
    + now rewrite String.eqb_refl.
    + now rewrite He.
Qed.

Lemma dict_get_set_other {V : Type} (d : dict V) (k k' : string) (v : V) :
  k' <> k -> dict_get (dict_set d k v) k' = dict_get d k'.
Proof.
  intros Hne. induction d as [ | [k0 v0] d IH]; cbn.
  - apply String.eqb_neq in Hne. rewrite String.eqb_sym in Hne. now rewrite Hne.
  - destruct (String.eqb k0 k) eqn:He; cbn.
    + apply String.eqb_eq in He. subst k0.
      apply String.eqb_neq in Hne. rewrite String.eqb_sym in Hne. now rewrite Hne.
    + now rewrite IH.
Qed.

Lemma dict_get_none {V : Type} (d : dict V) (k : string) :
  dict_get d k = None <-> ~ In k (dict_keys d).
Proof.
  induction d as [ | [k' v'] d IH]; cbn.
  - split; [intros _ [] | reflexivity].
  - destruct (String.eqb k' k) eqn:He.
    + apply String.eqb_eq in He. split; [discriminate | intros H; exfalso; apply H; now left].
    + apply String.eqb_neq in He. rewrite IH. split.
      * intros H [Hk | Hin]; [now apply He | now apply H].
      * intros H Hin. apply H. now right.
Qed.

Lemma dict_get_merge {V : Type} (e base : dict V) (k : string) :
  NoDup (dict_keys e) ->
  dict_get (dict_merge base e) k
  = match dict_get e k with
    | Some v => Some v
    | None => dict_get base k
    end.
Proof.
  unfold dict_merge. revert base.
  induction e as [ | [k1 v1] e IH]; intros base Hnd; [reflexivity | ].
  cbn [fold_left fst snd dict_get]. inversion Hnd as [ | ? ? Hnotin Hnd']; subst.
  rewrite (IH _ Hnd').
  destruct (String.eqb k1 k) eqn:He.
  - apply String.eqb_eq in He. subst k1.
    apply dict_get_none in Hnotin. rewrite Hnotin. apply dict_get_set_same.
  - apply String.eqb_neq in He.
    destruct (dict_get e k); [reflexivity | ].
    apply dict_get_set_other. congruence.
Qed.

(** ** Listing, calling and initialising on any server *)

Section Dispatch_facts.

Variable RT : Runtime.
Variable self : server_state.
Variable amb : Ambient.

(** X3: [initialize] is answered with status 200, under the request's id,
    by the protocol version, the server's capabilities and the server
    identity, which is what the [initialize] event of an SSE session carries
    as its [params]; the result is the same for any two such requests,
    whatever their [id], their [params] and the host's tracing.  This holds
    provided the answer can be rendered; when it cannot, the [except] branch
    answers with status 500. *)
Theorem initialize_result_on_both_transports (RT' : Runtime) (amb' : Ambient)
  (d d' : dict json) :
  dict_get d "method" = Some (JStr "initialize") ->
  dict_get d' "method" = Some (JStr "initialize") ->
  let result :=
    JObj [("protocolVersion", JStr MCP_VERSION);
          ("capabilities", capabilities self);
          ("serverInfo", SERVER_INFO)] in
  let answer (id : json) :=
    JObj [("jsonrpc", JStr "2.0"); ("id", id); ("result", result)] in
  let answered (host : Runtime) (r : res Response) (id : json) :=
    (renderable (recursion_budget host) (answer id) = true ->
     r = Ok (answer_200 (answer id)))
    /\ (renderable (recursion_budget host) (answer id) = false ->
        r = Ok (catch_all_answer (render_error_text host (answer id)))) in
  chunk_params (initialize_event self) = Some result
  /\ answered RT (handle_mcp_request RT self amb (Ok (JObj d))) (request_id amb d)
  /\ answered RT' (handle_mcp_request RT' self amb' (Ok (JObj d')))
       (request_id amb' d').
Proof.
  intros Hm Hm' result answer answered.
  assert (Hd : forall host clock body,
             dict_get body "method" = Some (JStr "initialize") ->
             dispatch host self clock (Ok (JObj body))
             = Ok (answer (request_id clock body))).
  { intros host clock body Hb. unfold dispatch. cbn [bind get].
    rewrite (dict_get_or_some _ _ _ _ Hb). reflexivity. }
  split; [reflexivity | ]. split; split; intros Hr.
  - exact (handle_rendered RT self amb _ _ (Hd RT amb d Hm) Hr).
  - exact (handle_unrenderable RT self amb _ _ (Hd RT amb d Hm) Hr).
  - exact (handle_rendered RT' self amb' _ _ (Hd RT' amb' d' Hm') Hr).
  - exact (handle_unrenderable RT' self amb' _ _ (Hd RT' amb' d' Hm') Hr).
Qed.

(** X4: [tools/list] on any server, whatever [params] it is given, is
    answered with status 200 by as many descriptors as the registry has
    entries, in the order of the registry.  The descriptor of an entry has the
    entry's key as its [name], unless the entry's details carry a [name] of
    their own, which then takes its place; every other field of the details is
    carried over.  This holds provided the answer can be rendered; when it
    cannot, the [except] branch answers with status 500. *)
Theorem tools_list_any_registry (d : dict json) (i : nat) (name : string)
  (details : dict json) :
  dict_get d "method" = Some (JStr "tools/list") ->
  nth_error (tools self) i = Some (name, details) ->
  NoDup (dict_keys details) ->
  exists descriptors,
    let answer :=
      JObj [("jsonrpc", JStr "2.0");
            ("id", request_id amb d);
            ("result", JObj [("tools", JArr descriptors)])] in
    let r := handle_mcp_request RT self amb (Ok (JObj d)) in
    (renderable (recursion_budget RT) answer = true -> r = Ok (answer_200 answer))
    /\ (renderable (recursion_budget RT) answer = false ->
        r = Ok (catch_all_answer (render_error_text RT answer)))
    /\ List.length descriptors = List.length (tools self)
    /\ exists fields,
        nth_error descriptors i = Some (JObj fields)
        /\ dict_get fields "name" = Some (dict_get_or details "name" (JStr name))
        /\ forall k, k <> "name" -> dict_get fields k = dict_get details k.
Proof.
  intros Hm Hnth Hnd. exists (tools_list self). cbv zeta.
  assert (Hd : dispatch RT self amb (Ok (JObj d))
               = Ok (JObj [("jsonrpc", JStr "2.0");
                           ("id", request_id amb d);
                           ("result", JObj [("tools", JArr (tools_list self))])])).
  { unfold dispatch. cbn [bind get].
    rewrite (dict_get_or_some _ _ _ _ Hm). reflexivity. }
  split; [ | split; [ | split]].
  - intros Hr. exact (handle_rendered _ _ _ _ _ Hd Hr).
  - intros Hr. exact (handle_unrenderable _ _ _ _ _ Hd Hr).
  - unfold tools_list. apply length_map.
  - exists (dict_merge [("name", JStr name)] details). split; [ | split].
    + unfold tools_list. rewrite nth_error_map, Hnth. reflexivity.
    + rewrite (dict_get_merge _ _ _ Hnd). unfold dict_get_or.
      destruct (dict_get details "name"); reflexivity.
    + intros k Hk. rewrite (dict_get_merge _ _ _ Hnd).
      destruct (dict_get details k); [reflexivity | ].
      cbn [dict_get]. apply String.eqb_neq in Hk. rewrite String.eqb_sym in Hk.
      now rewrite Hk.
Qed.

Lemma not_implemented_branch (now : string) (name : string) (arguments : json) :
  ~ In name implemented_tools ->
  tool_branches RT now (JStr name) arguments = Ok ("Unknown tool: " ++ name).
Proof.
  intros Hnot. unfold tool_branches. cbn [str_eq].
  repeat match goal with
         | |- context [String.eqb name ?s] =>
             destruct (String.eqb name s) eqn:He;
             [apply String.eqb_eq in He; exfalso; apply Hnot; subst name; cbn; tauto
             | clear He]
         end.
  reflexivity.
Qed.

(** X5: a name that is in the registry but for which the executor has no
    branch is not reported as an error: the call is answered with status 200
    by the text ["Unknown tool: "] followed by the name, with [isError]
    false, provided that answer can be rendered; when it cannot, the [except]
    branch answers with status 500. *)
Theorem registered_tool_without_branch (d params arguments : dict json)
  (name : string) :
  dict_get d "method" = Some (JStr "tools/call") ->
  dict_get_or d "params" (JObj []) = JObj params ->
  dict_get_or params "name" (JStr "") = JStr name ->
  dict_get_or params "arguments" (JObj []) = JObj arguments ->
  In name (registered_names self) ->
  ~ In name implemented_tools ->
  let answer :=
    JObj [("jsonrpc", JStr "2.0");
          ("id", request_id amb d);
          ("result",
           JObj [("content",
                  JArr [JObj [("type", JStr "text");
                              ("text", JStr ("Unknown tool: " ++ name))]]);
                 ("isError", JBool false)])] in
  let r := handle_mcp_request RT self amb (Ok (JObj d)) in
  (renderable (recursion_budget RT) answer = true -> r = Ok (answer_200 answer))
  /\ (renderable (recursion_budget RT) answer = false ->
      r = Ok (catch_all_answer (render_error_text RT answer))).
Proof.
  intros Hm Hp Hn Ha Hreg Hnot answer r.
  assert (Hd : dispatch RT self amb (Ok (JObj d)) = Ok answer).
  { rewrite (dispatch_tools_call RT self amb d params Hm Hp). cbn zeta.
    rewrite Hn, Ha. cbn [contains_key bind].
    apply mem_In in Hreg. unfold registered_names in Hreg. rewrite Hreg.
    rewrite _execute_tool_mapping, (not_implemented_branch _ _ _ Hnot).
    reflexivity. }
  split; intros Hr.
  - exact (handle_rendered _ _ _ _ _ Hd Hr).
  - exact (handle_unrenderable _ _ _ _ _ Hd Hr).
Qed.

(** The tracing wrapper of the scan re-raises what it catches. *)
Lemma run_kali_security_scan_is_impl (now : string) (target scan_type : json) :
  run_kali_security_scan RT now target scan_type
  = run_kali_security_scan_impl RT now target scan_type.
Proof.
  unfold run_kali_security_scan. destruct (tracing RT); [ | reflexivity].
  now destruct (run_kali_security_scan_impl RT now target scan_type).
Qed.

End Dispatch_facts.

Lemma tool_branches_with_tracing (RT : Runtime) (on : bool) (now : string)
  (tool_name arguments : json) :
  tool_branches (with_tracing on RT) now tool_name arguments
  = tool_branches RT now tool_name arguments.
Proof.
  unfold tool_branches.
  destruct (str_eq tool_name "get_complete_kali_arsenal_info"); [reflexivity | ].
  destruct (str_eq tool_name "get_kali_tool_category"); [reflexivity | ].
  destruct (str_eq tool_name "run_kali_security_scan"); [ | reflexivity].
  destruct (get arguments "target" (JStr "example.com")) as [target | e];
    [ | reflexivity].
  destruct (get arguments "scan_type" (JStr "reconnaissance")) as [scan_type | e];
    [ | reflexivity].
  cbn [bind]. rewrite !run_kali_security_scan_is_impl. reflexivity.
Qed.

Lemma handle_status_200 (RT : Runtime) (self : server_state) (amb : Ambient)
  (request : res json) (r : Response) :
  handle_mcp_request RT self amb request = Ok r ->
  status_code r = 200%Z ->
  exists response,
    dispatch RT self amb request = Ok response
    /\ renderable (recursion_budget RT) response = true
    /\ r = answer_200 response.
Proof.
  unfold handle_mcp_request.
  destruct (dispatch RT self amb request) as [response | e]; cbn [bind try_except].
  - unfold JSONResponse at 1.
    destruct (renderable (recursion_budget RT) response) eqn:Hr; cbn [try_except].
    + intros [= <-] _. exists response. now repeat split.
    + unfold JSONResponse.
      match goal with
      | |- (if ?c then _ else _) = _ -> _ =>
          destruct c; [intros H1 H2; injection H1 as H1; subst r; discriminate H2
                      | discriminate]
      end.
  - unfold JSONResponse.
    match goal with
      | |- (if ?c then _ else _) = _ -> _ =>
          destruct c; [intros H1 H2; injection H1 as H1; subst r; discriminate H2
                      | discriminate]
      end.
Qed.

Lemma dispatch_with_tracing (RT : Runtime) (self : server_state) (amb : Ambient)
  (request : res json) (response : json) :
  dispatch (with_tracing true RT) self amb request = Ok response ->
  dispatch (with_tracing false RT) self amb request = Ok response.
Proof.
  destruct request as [v | e]; [ | trivial].
  destruct v as [ | b | z | f | s | l | d]; trivial.
  unfold dispatch. cbn [bind get].
  destruct (str_eq (dict_get_or d "method" (JStr "")) "tools/list"); [trivial | ].
  destruct (str_eq (dict_get_or d "method" (JStr "")) "tools/call"); [ | trivial].
  destruct (dict_get_or d "params" (JObj [])) as [ | b | z | f | s | l | p];
    trivial.
  cbn [bind get].
  destruct (contains_key (dict_get_or p "name" (JStr "")) (tools self))
    as [[ | ] | e]; trivial.
  cbn [bind]. unfold _execute_tool. cbn [tracing with_tracing].
  rewrite !_execute_tool_impl_returns, !tool_branches_with_tracing.
  destruct (len (dict_get_or p "arguments" (JObj []))) as [n | e]; cbn.
  - trivial.
  - discriminate.
Qed.

(** X6: switching tracing on never changes an answer of status 200: when
    the traced server answers 200 the untraced server gives the very same
    response. *)
Theorem tracing_keeps_successful_answers (RT : Runtime) (self : server_state)
  (amb : Ambient) (request : res json) (r : Response) :
  handle_mcp_request (with_tracing true RT) self amb request = Ok r ->
  status_code r = 200%Z ->
  handle_mcp_request (with_tracing true RT) self amb request
  = handle_mcp_request (with_tracing false RT) self amb request.
Proof.
  intros Hr Hs. rewrite Hr.
  destruct (handle_status_200 _ _ _ _ _ Hr Hs) as [response [Hd [Hrender ->]]].
  symmetry.
  exact (handle_rendered (with_tracing false RT) self amb request response
           (dispatch_with_tracing _ _ _ _ _ Hd) Hrender).
Qed.

(** ** Text that occurs in text *)

Lemma occurs_in_self (n : string) : occurs_in n n.
Proof. exists "", "". cbn. now rewrite append_empty_r. Qed.

Lemma occurs_in_app_r (n a b : string) : occurs_in n b -> occurs_in n (a ++ b).
Proof.
  intros [before [after H]]. exists (a ++ before), after.
  now rewrite H, append_assoc.
Qed.

Lemma occurs_in_app_l (n a b : string) : occurs_in n a -> occurs_in n (a ++ b).
Proof.
  intros [before [after H]]. exists before, (after ++ b).
  now rewrite H, !append_assoc.
Qed.

Lemma occurs_in_trans (a b c : string) :
  occurs_in a b -> occurs_in b c -> occurs_in a c.
Proof.
  intros [b1 [b2 Hb]] [c1 [c2 Hc]]. exists (c1 ++ b1), (b2 ++ c2).
  now rewrite Hc, Hb, !append_assoc.
Qed.

Lemma prefix_append (a b : string) : String.prefix a (a ++ b) = true.
Proof.
  induction a as [ | c a IH]; [now destruct b | ].
  cbn. destruct (ascii_dec c c) as [_ | Hne]; [exact IH | now contradiction Hne].
Qed.

Lemma prefix_of_eq (a b t : string) : t = a ++ b -> String.prefix a t = true.
Proof. intros ->. apply prefix_append. Qed.

Lemma occurs_in_head3 (n1 n2 n3 rest : string) :
  occurs_in (n1 ++ n2 ++ n3) (n1 ++ n2 ++ n3 ++ rest).
Proof. exists "", rest. cbn. now rewrite !append_assoc. Qed.

Lemma dict_get_in_keys {V : Type} (d : dict V) (k : string) :
  In k (dict_keys d) -> exists v, dict_get d k = Some v.
Proof.
  intros Hin. destruct (dict_get d k) as [v | ] eqn:Hg; [now exists v | ].
  apply dict_get_none in Hg. contradiction.
Qed.

(** ** The tool [get_kali_tool_category] on the categories of the table *)

Lemma occurs_in_tool_lines (tools : list string) (start i : nat) (tool : string) :
  nth_error tools i = Some tool ->
  occurs_in (dec2 (start + i) ++ ". " ++ tool ++ " " ++ nl) (tool_lines start tools).
Proof.
  revert start i. induction tools as [ | t tools IH]; intros start i Hnth.
  - destruct i; discriminate.
  - destruct i as [ | i]; cbn [tool_lines].
    + cbn in Hnth. injection Hnth as ->. rewrite Nat.add_0_r.
      apply occurs_in_app_l.
      exact (occurs_in_self (dec2 start ++ ". " ++ tool ++ " " ++ nl)).
    + apply occurs_in_app_r. replace (start + S i)%nat with (S start + i)%nat by lia.
      now apply IH.
Qed.

Lemma category_text_exists (s : string) :
  In s (dict_keys get_kali_arsenal_data) ->
  exists text, get_kali_tool_category (JStr s) = Ok text.
Proof.
  intros Hin.
  destruct (dict_get_in_keys _ _ Hin) as [category_info Hget].
  assert (Hne : String.eqb s "" = false).
  { destruct (String.eqb s "") eqn:He; [ | reflexivity].
    apply String.eqb_eq in He. subst s. apply mem_In in Hin. discriminate Hin. }
  apply mem_In in Hin. eexists.
  unfold get_kali_tool_category. cbn [truthy contains_key].
  rewrite Hne. cbn [negb bind]. rewrite Hin. cbn [negb bind arsenal_item].
  rewrite Hget. cbn [bind call_upper]. reflexivity.
Qed.

(** X7: for every category name of the arsenal table
    [get_kali_tool_category] returns (it does not raise) a text that starts
    with a line break, the upper-cased name and [" - "], states the category's
    tool count and description, and lists every tool of the category on a line
    of its own, numbered from 1 in a field of width two; the text is not the
    invalid-category message. *)
Theorem valid_category_described (s : string) :
  In s (dict_keys get_kali_arsenal_data) ->
  exists category_info text,
    dict_get get_kali_arsenal_data s = Some category_info
    /\ get_kali_tool_category (JStr s) = Ok text
    /\ String.prefix (nl ++ upper s ++ " - ") text = true
    /\ occurs_in ("- **Tool Count**: " ++ dec (Category.count category_info) ++ nl) text
    /\ occurs_in
         ("- **Description**: " ++ Category.description category_info ++ nl) text
    /\ (forall i tool,
          nth_error (Category.tools category_info) i = Some tool ->
          occurs_in (dec2 (S i) ++ ". " ++ tool ++ " " ++ nl) text)
    /\ String.prefix "Invalid category." text = false.
Proof.
  intros Hin.
  destruct (dict_get_in_keys _ _ Hin) as [category_info Hget].
  assert (Hne : String.eqb s "" = false).
  { destruct (String.eqb s "") eqn:He; [ | reflexivity].
    apply String.eqb_eq in He. subst s. apply mem_In in Hin. discriminate Hin. }
  apply mem_In in Hin.
  exists category_info. eexists. split; [exact Hget | ]. split.
  { unfold get_kali_tool_category. cbn [truthy contains_key].
    rewrite Hne. cbn [negb bind]. rewrite Hin. cbn [negb bind arsenal_item].
    rewrite Hget. cbn [bind call_upper]. reflexivity. }
  cbv zeta. split; [ | split; [ | split; [ | split]]].
  - eapply prefix_of_eq. rewrite !append_assoc. reflexivity.
  - rewrite !append_assoc.
    repeat first [apply occurs_in_head3 | apply occurs_in_app_r].
  - rewrite !append_assoc.
    repeat first [apply occurs_in_head3 | apply occurs_in_app_r].
  - intros i tool Hnth. apply occurs_in_app_l, occurs_in_app_r.
    exact (occurs_in_tool_lines _ 1 i tool Hnth).
  - reflexivity.
Qed.

(** X8: what [get_kali_tool_category] does with an argument that is no
    category name.  Every falsy value ([None], [False], [0], [""], [[]],
    [{}]) and every number, boolean or string that is no key of the table
    gives the invalid-category message; a non-empty list or mapping makes the
    membership test raise [TypeError], which the executor turns into the text
    ["Tool execution failed: unhashable type: ..."]; a string never raises. *)
Theorem category_argument_edge_cases (RT : Runtime) (now : string) (v : json) :
  (truthy v = false -> get_kali_tool_category v = Ok invalid_category_text)
  /\ (hashable v = true ->
      (forall s, v = JStr s -> ~ In s (dict_keys get_kali_arsenal_data)) ->
      get_kali_tool_category v = Ok invalid_category_text)
  /\ (truthy v = true -> hashable v = false ->
      get_kali_tool_category v = Raise (TypeError_unhashable (type_name v))
      /\ _execute_tool_impl RT now (JStr "get_kali_tool_category")
           (JObj [("category_name", v)])
         = Ok ("Tool execution failed: unhashable type: '" ++ type_name v ++ "'"))
  /\ (forall s, v = JStr s -> exists text, get_kali_tool_category v = Ok text).
Proof.
  split; [ | split; [ | split]].
  - intros Hf. unfold get_kali_tool_category. now rewrite Hf.
  - intros Hh Hkey. destruct v as [ | b | z | f | s | l | d]; try discriminate Hh.
    + reflexivity.
    + unfold get_kali_tool_category. cbn [truthy contains_key].
      now destruct (negb b).
    + unfold get_kali_tool_category. cbn [truthy contains_key].
      now destruct (negb (negb (z =? 0)%Z)).
    + unfold get_kali_tool_category. cbn [truthy contains_key].
      now destruct f.
    + apply get_kali_tool_category_invalid. right. now apply Hkey.
  - intros Ht Hh.
    assert (Hraise : get_kali_tool_category v = Raise (TypeError_unhashable (type_name v))).
    { unfold get_kali_tool_category. rewrite Ht.
      destruct v; try discriminate Hh; reflexivity. }
    split; [exact Hraise | ].
    rewrite _execute_tool_impl_returns.
    change (tool_branches RT now (JStr "get_kali_tool_category")
              (JObj [("category_name", v)]))
      with (get_kali_tool_category v).
    rewrite Hraise. reflexivity.
  - intros s ->.
    destruct (mem s (dict_keys get_kali_arsenal_data)) eqn:Hmem.
    + apply mem_In in Hmem.
      destruct (category_text_exists s Hmem) as [text Htext].
      now exists text.
    + exists invalid_category_text. apply get_kali_tool_category_invalid.
      right. intros Hin. apply mem_In in Hin. congruence.
Qed.

(** ** The scan and report tools *)

(** X9: [run_kali_security_scan] gives the same outcome with tracing on
    and off; a falsy target ([""], [None], [0], ...) is scanned as
    ["example.com"]; a [scan_type] that is a string never makes it raise, and
    one that is not a string always does, with [AttributeError] on [upper],
    whatever the target. *)
Theorem scan_target_default_and_type (RT : Runtime) (now : string)
  (target scan_type : json) :
  run_kali_security_scan (with_tracing true RT) now target scan_type
  = run_kali_security_scan (with_tracing false RT) now target scan_type
  /\ (truthy target = false ->
      run_kali_security_scan RT now target scan_type
      = run_kali_security_scan RT now (JStr "example.com") scan_type)
  /\ (forall s, scan_type = JStr s ->
      run_kali_security_scan RT now target scan_type
      = Ok (scan_results_text RT now
              (if truthy target then format RT target else "example.com") s))
  /\ (is_string scan_type = false ->
      run_kali_security_scan RT now target scan_type
      = Raise (AttributeError (type_name scan_type) "upper")).
Proof.
  rewrite !run_kali_security_scan_is_impl.
  split; [reflexivity | ]. split; [ | split].
  - intros Hf. unfold run_kali_security_scan_impl. rewrite Hf. reflexivity.
  - intros s ->. unfold run_kali_security_scan_impl.
    now destruct (truthy target).
  - intros Hs. unfold run_kali_security_scan_impl.
    destruct scan_type; try discriminate Hs; reflexivity.
Qed.

(** X10: the input schemas name required arguments, but the handler does
    not enforce them.  On the running server a [tools/call] that leaves
    [arguments] out is answered with status 200 and [isError] false: the scan
    runs on ["example.com"] with type ["reconnaissance"] although its schema
    requires [target]; the report is the ["comprehensive"] one; and the
    category tool, whose schema requires [category_name], answers with the
    invalid-category message.  This holds provided the answer can be rendered;
    when it cannot, the [except] branch answers with status 500. *)
Theorem omitted_arguments_take_defaults (RT : Runtime) (amb : Ambient)
  (d params : dict json) (name : string) :
  dict_get d "method" = Some (JStr "tools/call") ->
  dict_get_or d "params" (JObj []) = JObj params ->
  dict_get params "name" = Some (JStr name) ->
  dict_get params "arguments" = None ->
  let answer (text : string) :=
    JObj [("jsonrpc", JStr "2.0");
          ("id", request_id amb d);
          ("result",
           JObj [("content",
                  JArr [JObj [("type", JStr "text"); ("text", JStr text)]]);
                 ("isError", JBool false)])] in
  let r := handle_mcp_request RT mcp_server amb (Ok (JObj d)) in
  let answered_with (text : string) :=
    (renderable (recursion_budget RT) (answer text) = true ->
     r = Ok (answer_200 (answer text)))
    /\ (renderable (recursion_budget RT) (answer text) = false ->
        r = Ok (catch_all_answer (render_error_text RT (answer text)))) in
  (name = "run_kali_security_scan" ->
   required_arguments mcp_server name = Some (JArr [JStr "target"])
   /\ answered_with (scan_results_text RT (now amb) "example.com" "reconnaissance"))
  /\ (name = "generate_kali_security_report" ->
      answered_with (report_text RT (now amb) "comprehensive"))
  /\ (name = "get_kali_tool_category" ->
      required_arguments mcp_server name = Some (JArr [JStr "category_name"])
      /\ answered_with invalid_category_text).
Proof.
  intros Hm Hp Hn Ha answer r answered_with.
  assert (Hd : In name (registered_names mcp_server) ->
               dispatch RT mcp_server amb (Ok (JObj d))
               = Ok (answer (outcome_text
                               (tool_branches RT (now amb) (JStr name) (JObj []))))).
  { intros Hreg.
    rewrite (dispatch_tools_call RT mcp_server amb d params Hm Hp). cbn zeta.
    rewrite (dict_get_or_some _ _ _ _ Hn), (dict_get_or_none _ _ _ Ha).
    cbn [contains_key bind].
    apply mem_In in Hreg. unfold registered_names in Hreg. rewrite Hreg.
    rewrite _execute_tool_mapping. reflexivity. }
  assert (Hr : forall text,
             In name (registered_names mcp_server) ->
             outcome_text (tool_branches RT (now amb) (JStr name) (JObj [])) = text ->
             answered_with text).
  { intros text Hreg <-. subst answered_with r. cbv beta. split; intros Hrender.
    - exact (handle_rendered _ _ _ _ _ (Hd Hreg) Hrender).
    - exact (handle_unrenderable _ _ _ _ _ (Hd Hreg) Hrender). }
  split; [ | split].
  - intros ->. split; [reflexivity | ]. apply Hr; [apply mem_In; reflexivity | ].
    unfold tool_branches.
    cbn [str_eq String.eqb Ascii.eqb Bool.eqb get dict_get_or dict_get bind].
    rewrite run_kali_security_scan_is_impl. reflexivity.
  - intros ->. apply Hr; [apply mem_In; reflexivity | ]. reflexivity.
  - intros ->. split; [reflexivity | ]. apply Hr; [apply mem_In; reflexivity | ].
    reflexivity.
Qed.

(** X11: [generate_kali_security_report] returns the report for every
    [report_type] that is a string and raises [AttributeError] on [upper] for
    every other value; the executor turns that into the text
    ["Tool execution failed: '<type>' object has no attribute 'upper'"]. *)
Theorem report_type_must_be_a_string (RT : Runtime) (now : string)
  (report_type : json) :
  (forall s, report_type = JStr s ->
     generate_kali_security_report RT now report_type = Ok (report_text RT now s))
  /\ (is_string report_type = false ->
      generate_kali_security_report RT now report_type
      = Raise (AttributeError (type_name report_type) "upper")
      /\ _execute_tool_impl RT now (JStr "generate_kali_security_report")
           (JObj [("report_type", report_type)])
         = Ok ("Tool execution failed: '" ++ type_name report_type
               ++ "' object has no attribute 'upper'")).
Proof.
  split.
  - now intros s ->.
  - intros Hs.
    assert (Hraise : generate_kali_security_report RT now report_type
                     = Raise (AttributeError (type_name report_type) "upper"))
      by (destruct report_type; try discriminate Hs; reflexivity).
    split; [exact Hraise | ].
    rewrite _execute_tool_impl_returns.
    change (tool_branches RT now (JStr "generate_kali_security_report")
              (JObj [("report_type", report_type)]))
      with (generate_kali_security_report RT now report_type).
    rewrite Hraise. reflexivity.
Qed.

(** ** Registering the tools *)











(** ** More on the SSE session *)

Lemma event_stream_from_cancel (self : server_state) (p : gen_point)
  (before after : list wake) :
  event_stream_from self p (before ++ Cancel :: after)
  = event_stream_from self p before.
Proof.
  revert p. induction before as [ | w before IH]; intros p.
  - cbn [app event_stream_from].
    assert (H : event_stream_step self p Cancel = (Finished, []))
      by now destruct p.
    rewrite H. cbn [app]. apply event_stream_finished.
  - cbn [app event_stream_from].
    destruct (event_stream_step self p w) as [p' out]. now rewrite IH.
Qed.

(** X13: once the connection is dropped the session emits nothing more:
    the chunks of a session are those emitted before the first cancellation,
    whatever wakes the generator afterwards. *)
Theorem nothing_after_cancellation (self : server_state)
  (before after : list wake) :
  event_stream self (before ++ Cancel :: after) = event_stream self before.
Proof. apply event_stream_from_cancel. Qed.



(** ** The arsenal table and its overview *)

(** X15: for every category of the arsenal table the tool count that
    [get_kali_tool_category] states is larger than the number of tools it
    lists: the counts that [get_total_tool_count] adds up are not the lengths
    of the tool lists. *)
Theorem stated_count_exceeds_listed_tools (s : string) (info : Category.info) :
  dict_get get_kali_arsenal_data s = Some info ->
  (Z.of_nat (List.length (Category.tools info)) < Category.count info)%Z.
Proof.
  unfold get_kali_arsenal_data. cbn [dict_get].
  repeat match goal with
         | |- context [String.eqb ?k s] =>
             destruct (String.eqb k s); [intros [= <-]; reflexivity | ]
         end.
  discriminate.
Qed.

(** X16: the overview [get_complete_kali_arsenal_info] builds has, for
    every category of the arsenal table, the line with its name and tool count
    and the line with its description; its total is the value of
    [get_total_tool_count], its standard count that of
    [get_standard_tool_count] and its number of categories that of
    [get_category_count]. *)
Theorem overview_lists_every_category (category : string) (info : Category.info) :
  In (category, info) get_kali_arsenal_data ->
  let text := complete_kali_arsenal_info_text in
  occurs_in
    ("- **" ++ category ++ "**: " ++ dec (Category.count info) ++ " tools"
     ++ (if Category.bleeding_edge_enhanced info
         then " (Bleeding Edge Enhanced)" else "") ++ nl) text
  /\ occurs_in ("  *" ++ Category.description info ++ "*" ++ nl) text
  /\ occurs_in
       ("**TOTAL ARSENAL: " ++ dec get_total_tool_count ++ " CYBERSECURITY TOOLS**")
       text
  /\ occurs_in ("- **Standard Kali Tools**: " ++ dec get_standard_tool_count ++ nl)
       text
  /\ occurs_in
       ("- **Security Categories**: " ++ dec (Z.of_nat get_category_count) ++ nl)
       text.
Proof.
  intros Hin text.
  assert (Hpart : forall line,
             In line (category_breakdown category info) -> occurs_in line text).
  { intros line Hline. subst text. unfold complete_kali_arsenal_info_text.
    cbv zeta. apply occurs_in_join. apply in_or_app. right.
    apply in_or_app. left. apply in_flat_map.
    exists (category, info). split; assumption. }
  split; [apply Hpart; now left | ].
  split; [apply Hpart; right; now left | ].
  subst text. unfold complete_kali_arsenal_info_text. cbv zeta.
  split; [ | split].
  - eapply occurs_in_trans; [ | apply occurs_in_join; right; now left].
    exists "", nl. now rewrite !append_assoc.
  - apply occurs_in_join. right. right. now left.
  - apply occurs_in_join. do 4 right. now left.
Qed.

(** ** The verification script *)

Lemma prefix_iff (a t : string) :
  String.prefix a t = true <-> exists b, t = a ++ b.
Proof.
  split.
  - revert t. induction a as [ | c a IH]; intros t H.
    + now exists t.
    + destruct t as [ | c' t]; [discriminate H | ]. cbn in H.
      destruct (ascii_dec c c') as [<- | ]; [ | discriminate H].
      destruct (IH t H) as [b ->]. now exists b.
  - intros [b ->]. apply prefix_append.
Qed.

Lemma contains_iff (needle hay : string) :
  Verify.contains needle hay = true <-> occurs_in needle hay.
Proof.
  induction hay as [ | c hay IH].
  - cbn [Verify.contains]. rewrite orb_false_r, prefix_iff. split.
    + intros [b H]. exists "", b. exact H.
    + intros [before [after H]]. destruct before; [now exists after | discriminate H].
  - cbn [Verify.contains]. rewrite orb_true_iff, prefix_iff, IH. split.
    + intros [[b H] | [before [after H]]].
      * exists "", b. exact H.
      * exists (String c before), after. cbn. now rewrite H.
    + intros [before [after H]]. destruct before as [ | c' before].
      * left. now exists after.
      * right. cbn in H. injection H as _ H. now exists before, after.
Qed.

Lemma contains_longer (short long content : string) :
  occurs_in short long ->
  Verify.contains short content = false ->
  Verify.contains long content = false.
Proof.
  intros Hsl Hshort. destruct (Verify.contains long content) eqn:Hlong; [ | reflexivity].
  apply contains_iff in Hlong.
  assert (H : Verify.contains short content = true)
    by (apply contains_iff; eapply occurs_in_trans; eassumption).
  congruence.
Qed.

(** X17: when [check_app_py] accepts a file, four of the five checks of
    [check_no_broken_references] are settled: that function then accepts the
    same file exactly when ["await speak_"] does not occur in it. *)
Theorem check_app_py_settles_broken_references (content : string) :
  snd (Verify.check_app_py content) = true ->
  snd (Verify.check_no_broken_references content)
  = negb (Verify.contains "await speak_" content).
Proof.
  unfold Verify.check_app_py, Verify.check_no_broken_references.
  cbn [snd]. intros H. apply andb_prop in H. destruct H as [Hremoved _].
  cbn [Verify.removed_markers map forallb fst snd] in Hremoved.
  apply andb_prop in Hremoved. destruct Hremoved as [Hconfig Hremoved].
  apply andb_prop in Hremoved. destruct Hremoved as [Hsynth _].
  apply negb_true_iff in Hconfig. apply negb_true_iff in Hsynth.
  cbn [Verify.broken_patterns map forallb fst snd].
  rewrite (contains_longer "TTS_CONFIG" "TTS_CONFIG[" content)
    by (assumption || (exists "", "["; reflexivity)).
  rewrite (contains_longer "TTS_CONFIG" "len(TTS_CONFIG" content)
    by (assumption || (exists "len(", ""; reflexivity)).
  rewrite (contains_longer "TTS_CONFIG" "TTS_CONFIG.get" content)
    by (assumption || (exists "", ".get"; reflexivity)).
  rewrite (contains_longer "synthesize_text_to_speech"
             "await synthesize_text_to_speech" content)
    by (assumption || (exists "await ", ""; reflexivity)).
  cbn [negb andb]. now rewrite andb_true_r.
Qed.

Lemma check_app_py_settles_broken_references_sample :
  snd (Verify.check_no_broken_references Verify.sample_content)
  = negb (Verify.contains "await speak_" Verify.sample_content).
Proof.
  apply (check_app_py_settles_broken_references Verify.sample_content).
  vm_compute. reflexivity.
Defined.


(** ** The further theorems at sample requests *)

Lemma decode_error_text_encodable (msg : string) (e : exn) :
  encodable msg = true ->
  @Raise json (JSONDecodeError msg) = Raise e ->
  encodable (str_exn e) = true.
Proof. intros Hmsg H. injection H as <-. exact Hmsg. Defined.

Lemma every_answer_is_an_envelope_sample :
  exists r,
    handle_mcp_request (Sample.rt true) mcp_server Sample.amb
      (Raise (JSONDecodeError "Expecting value: line 1 column 1 (char 0)")) = Ok r
    /\ body_field r "jsonrpc" = Some (JStr "2.0")
    /\ body_field r "id" <> None
    /\ ((body_field r "result" <> None /\ body_field r "error" = None)
        \/ (body_field r "result" = None /\ body_field r "error" <> None))
    /\ (status_code r = 200%Z \/ status_code r = 500%Z)
    /\ (body_field r "error" <> None ->
        error_field r "code" = Some (JNum (-32601))
        \/ error_field r "code" = Some (JNum (-32603)))
    /\ (status_code r = 500%Z <-> error_field r "code" = Some (JNum (-32603)))
    /\ (status_code r = 500%Z -> body_field r "id" = Some (JStr "error")).
Proof.
  exact (every_answer_is_an_envelope (Sample.rt true) mcp_server Sample.amb
           (Raise (JSONDecodeError "Expecting value: line 1 column 1 (char 0)"))
           (fun e =>
              decode_error_text_encodable
                "Expecting value: line 1 column 1 (char 0)" e eq_refl)).
Defined.

Lemma status_500_exactly_when_sample :
  exists r,
    handle_mcp_request (Sample.rt true) mcp_server Sample.amb
      (Ok (JObj More_samples.list_tools_surrogate_id)) = Ok r
    /\ status_code r = 500%Z.
Proof.
  destruct (status_500_exactly_when (Sample.rt true) mcp_server Sample.amb
              (Ok (JObj More_samples.list_tools_surrogate_id))
              (fun e H => match H in (_ = x) return
                                (match x with
                                 | Ok _ => True
                                 | Raise e' => encodable (str_exn e') = true
                                 end)
                          with eq_refl => I end))
    as [r [Hr [_ H500]]].
  exists r. split; [exact Hr | ].
  apply H500. right. eexists. split; reflexivity.
Defined.

Lemma initialize_result_on_both_transports_sample :
  let result :=
    JObj [("protocolVersion", JStr MCP_VERSION);
          ("capabilities", capabilities mcp_server);
          ("serverInfo", SERVER_INFO)] in
  chunk_params (initialize_event mcp_server) = Some result
  /\ handle_mcp_request (Sample.rt true) mcp_server Sample.amb
       (Ok (JObj More_samples.initialize))
     = Ok (answer_200 (JObj [("jsonrpc", JStr "2.0");
                             ("id", JNum 0);
                             ("result", result)]))
  /\ handle_mcp_request (Sample.rt false) mcp_server Sample.amb
       (Ok (JObj More_samples.initialize_again))
     = Ok (answer_200 (JObj [("jsonrpc", JStr "2.0");
                             ("id", JStr "second");
                             ("result", result)])).
Proof.
  destruct (initialize_result_on_both_transports (Sample.rt true) mcp_server
              Sample.amb (Sample.rt false) Sample.amb
              More_samples.initialize More_samples.initialize_again
              eq_refl eq_refl)
    as [Hevent [[Hfirst _] [Hsecond _]]].
  split; [exact Hevent | ].
  split; [exact (Hfirst eq_refl) | exact (Hsecond eq_refl)].
Defined.

Lemma NoDup_sample_details :
  NoDup (dict_keys [("description", JStr "Scan ports"); ("inputSchema", JObj [])]).
Proof.
  repeat (constructor; [cbn; intuition discriminate | ]). constructor.
Defined.

Lemma tools_list_any_registry_sample :
  exists descriptors,
    let answer :=
      JObj [("jsonrpc", JStr "2.0");
            ("id", JStr "abc");
            ("result", JObj [("tools", JArr descriptors)])] in
    let r := handle_mcp_request (Sample.rt true) More_samples.extended_server
               Sample.amb (Ok (JObj Sample.list_tools)) in
    (renderable (recursion_budget (Sample.rt true)) answer = true ->
     r = Ok (answer_200 answer))
    /\ (renderable (recursion_budget (Sample.rt true)) answer = false ->
        r = Ok (catch_all_answer (render_error_text (Sample.rt true) answer)))
    /\ List.length descriptors = 6%nat
    /\ exists fields,
        nth_error descriptors 5 = Some (JObj fields)
        /\ dict_get fields "name" = Some (JStr "port_scan")
        /\ forall k, k <> "name" ->
             dict_get fields k
             = dict_get [("description", JStr "Scan ports"); ("inputSchema", JObj [])] k.
Proof.
  exact (tools_list_any_registry (Sample.rt true) More_samples.extended_server
           Sample.amb Sample.list_tools 5 "port_scan"
           [("description", JStr "Scan ports"); ("inputSchema", JObj [])]
           eq_refl eq_refl NoDup_sample_details).
Defined.

Lemma not_implemented (n : string) :
  mem n implemented_tools = false -> ~ In n implemented_tools.
Proof. intros H Hin. apply mem_In in Hin. congruence. Defined.

Lemma registered_tool_without_branch_sample :
  handle_mcp_request (Sample.rt true) More_samples.extended_server Sample.amb
    (Ok (JObj More_samples.call_port_scan))
  = Ok (answer_200
          (JObj [("jsonrpc", JStr "2.0");
                 ("id", JNum 3);
                 ("result",
                  JObj [("content",
                         JArr [JObj [("type", JStr "text");
                                     ("text", JStr "Unknown tool: port_scan")]]);
                        ("isError", JBool false)])])).
Proof.
  apply (proj1 (registered_tool_without_branch (Sample.rt true)
                  More_samples.extended_server Sample.amb
                  More_samples.call_port_scan
                  (Sample.call_params "port_scan" []) [] "port_scan"
                  eq_refl eq_refl eq_refl eq_refl
                  (proj1 (mem_In "port_scan"
                            (registered_names More_samples.extended_server))
                     eq_refl)
                  (not_implemented "port_scan" eq_refl))).
  reflexivity.
Defined.

Lemma tracing_keeps_successful_answers_sample :
  handle_mcp_request (with_tracing true (Sample.rt false)) mcp_server Sample.amb
    (Ok (JObj Sample.call_scan))
  = handle_mcp_request (with_tracing false (Sample.rt false)) mcp_server Sample.amb
      (Ok (JObj Sample.call_scan)).
Proof.
  eapply (tracing_keeps_successful_answers (Sample.rt false) mcp_server Sample.amb
            (Ok (JObj Sample.call_scan))).
  - reflexivity.
  - reflexivity.
Defined.

Lemma valid_category_described_sample :
  exists category_info text,
    dict_get get_kali_arsenal_data "Forensics" = Some category_info
    /\ get_kali_tool_category (JStr "Forensics") = Ok text
    /\ String.prefix (nl ++ upper "Forensics" ++ " - ") text = true
    /\ occurs_in ("- **Tool Count**: " ++ dec (Category.count category_info) ++ nl) text
    /\ occurs_in
         ("- **Description**: " ++ Category.description category_info ++ nl) text
    /\ (forall i tool,
          nth_error (Category.tools category_info) i = Some tool ->
          occurs_in (dec2 (S i) ++ ". " ++ tool ++ " " ++ nl) text)
    /\ String.prefix "Invalid category." text = false.
Proof.
  apply (valid_category_described "Forensics").
  apply mem_In. reflexivity.
Defined.

Lemma omitted_arguments_take_defaults_sample :
  required_arguments mcp_server "run_kali_security_scan"
  = Some (JArr [JStr "target"])
  /\ handle_mcp_request (Sample.rt true) mcp_server Sample.amb
       (Ok (JObj More_samples.call_scan_bare))
     = Ok (answer_200
             (JObj [("jsonrpc", JStr "2.0");
                    ("id", JNum 4);
                    ("result",
                     JObj [("content",
                            JArr [JObj [("type", JStr "text");
                                        ("text",
                                         JStr (scan_results_text (Sample.rt true)
                                                 (now Sample.amb)
                                                 "example.com" "reconnaissance"))]]);
                           ("isError", JBool false)])])).
Proof.
  destruct (proj1 (omitted_arguments_take_defaults (Sample.rt true) Sample.amb
                     More_samples.call_scan_bare
                     [("name", JStr "run_kali_security_scan")]
                     "run_kali_security_scan"
                     eq_refl eq_refl eq_refl eq_refl) eq_refl)
    as [Hrequired [Hanswered _]].
  split; [exact Hrequired | exact (Hanswered eq_refl)].
Defined.

Lemma stated_count_exceeds_listed_tools_sample :
  (Z.of_nat (List.length
               ["gdb"; "radare2"; "ida-free"; "ghidra"; "objdump"; "strings";
                "ltrace"; "strace"; "hexedit"; "bless"; "dhex"; "okteta"]) < 35)%Z.
Proof.
  exact (stated_count_exceeds_listed_tools "Reverse Engineering"
           (category 35 "Complete reverse engineering and analysis tools" true
              ["gdb"; "radare2"; "ida-free"; "ghidra"; "objdump"; "strings";
               "ltrace"; "strace"; "hexedit"; "bless"; "dhex"; "okteta"])
           eq_refl).
Defined.

Lemma overview_lists_every_category_sample :
  let text := complete_kali_arsenal_info_text in
  occurs_in ("- **Crypto & Stego**: 32 tools (Bleeding Edge Enhanced)" ++ nl) text
  /\ occurs_in ("  *Cryptography and steganography analysis tools*" ++ nl) text
  /\ occurs_in "**TOTAL ARSENAL: 711 CYBERSECURITY TOOLS**" text
  /\ occurs_in ("- **Standard Kali Tools**: 561" ++ nl) text
  /\ occurs_in ("- **Security Categories**: 13" ++ nl) text.
Proof.
  apply (overview_lists_every_category "Crypto & Stego"
           (category 32 "Cryptography and steganography analysis tools" true
              ["hashcat"; "john"; "steghide"; "outguess"; "foremost";
               "binwalk"; "exiftool"; "fcrackzip"; "pdfcrack"; "rarcrack"])).
  cbn. do 9 right. left. reflexivity.
Defined.

(** X18: the handler reads nothing of a request but [method], [params] and
    [id]: two request objects that agree on these three keys get the same
    response, so the [jsonrpc] member (its presence, its version) and any
    other member are never checked. *)
Theorem only_method_params_id_are_read (RT : Runtime) (self : server_state)
  (amb : Ambient) (d d' : dict json) :
  dict_get d "method" = dict_get d' "method" ->
  dict_get d "params" = dict_get d' "params" ->
  dict_get d "id" = dict_get d' "id" ->
  handle_mcp_request RT self amb (Ok (JObj d))
  = handle_mcp_request RT self amb (Ok (JObj d')).
Proof.
  intros Hm Hp Hi. unfold handle_mcp_request, dispatch. cbn [bind get].
  unfold dict_get_or. now rewrite Hm, Hp, Hi.
Qed.

Lemma only_method_params_id_are_read_sample :
  handle_mcp_request (Sample.rt true) mcp_server Sample.amb
    (Ok (JObj Sample.foo_bar))
  = handle_mcp_request (Sample.rt true) mcp_server Sample.amb
      (Ok (JObj [("id", JStr "abc"); ("jsonrpc", JStr "1.0");
                 ("method", JStr "foo/bar"); ("extra", JNull)])).
Proof.
  exact (only_method_params_id_are_read (Sample.rt true) mcp_server Sample.amb
           Sample.foo_bar
           [("id", JStr "abc"); ("jsonrpc", JStr "1.0");
            ("method", JStr "foo/bar"); ("extra", JNull)]
           eq_refl eq_refl eq_refl).
Defined.

Lemma category_argument_edge_cases_sample :
  get_kali_tool_category (JArr []) = Ok invalid_category_text
  /\ get_kali_tool_category (JNum 7) = Ok invalid_category_text
  /\ get_kali_tool_category (JArr [JStr "Forensics"])
     = Raise (TypeError_unhashable "list")
  /\ _execute_tool_impl (Sample.rt false) "2025-01-01T00:00:00"
       (JStr "get_kali_tool_category")
       (JObj [("category_name", JArr [JStr "Forensics"])])
     = Ok "Tool execution failed: unhashable type: 'list'".
Proof.
  split; [ | split].
  - exact (proj1 (category_argument_edge_cases (Sample.rt false)
                    "2025-01-01T00:00:00" (JArr [])) eq_refl).
  - apply (proj1 (proj2 (category_argument_edge_cases (Sample.rt false)
                           "2025-01-01T00:00:00" (JNum 7)))).
    + reflexivity.
    + intros s H. discriminate H.
  - exact (proj1 (proj2 (proj2 (category_argument_edge_cases (Sample.rt false)
                                  "2025-01-01T00:00:00"
                                  (JArr [JStr "Forensics"]))))
             eq_refl eq_refl).
Defined.

Lemma scan_target_default_and_type_sample :
  run_kali_security_scan (Sample.rt true) "2025-01-01T00:00:00" (JStr "") (JStr "web")
  = run_kali_security_scan (Sample.rt true) "2025-01-01T00:00:00"
      (JStr "example.com") (JStr "web")
  /\ run_kali_security_scan (Sample.rt true) "2025-01-01T00:00:00" (JStr "") JNull
     = Raise (AttributeError "NoneType" "upper").
Proof.
  split.
  - exact (proj1 (proj2 (scan_target_default_and_type (Sample.rt true)
                           "2025-01-01T00:00:00" (JStr "") (JStr "web")))
             eq_refl).
  - exact (proj2 (proj2 (proj2 (scan_target_default_and_type (Sample.rt true)
                                  "2025-01-01T00:00:00" (JStr "") JNull)))
             eq_refl).
Defined.

Lemma report_type_must_be_a_string_sample :
  generate_kali_security_report (Sample.rt true) "2025-01-01T00:00:00"
    (JStr "executive")
  = Ok (report_text (Sample.rt true) "2025-01-01T00:00:00" "executive")
  /\ _execute_tool_impl (Sample.rt true) "2025-01-01T00:00:00"
       (JStr "generate_kali_security_report")
       (JObj [("report_type", JArr [])])
     = Ok "Tool execution failed: 'list' object has no attribute 'upper'".
Proof.
  split.
  - exact (proj1 (report_type_must_be_a_string (Sample.rt true)
                    "2025-01-01T00:00:00" (JStr "executive"))
             "executive" eq_refl).
  - exact (proj2 (proj2 (report_type_must_be_a_string (Sample.rt true)
                           "2025-01-01T00:00:00" (JArr []))
                    eq_refl)).
Defined.

